(** * ts-errors-gpt: the extension's workflow, embedded and verified

    A shallow embedding of [src/extension.ts].  The extension is glue code
    between three outside parties: the editor host (VS Code), the TypeScript
    compiler API and the OpenAI completion endpoint.  Its functions run in a
    small monad [Host] that reads and updates a [World] (what the user does,
    what is on disk and in secret storage, how the endpoint answers), records
    every call that leaves the extension, and returns or throws.  The two pure
    helpers of the TypeScript API that the code relies on are an interface
    ([TypeScriptApi]), with a reference implementation to compute with.

    [getTypeScriptPackage] is never called by the extension and is left out. *)

From Stdlib Require Import DecimalString QArith.
From stdpp Require Import base option list strings gmap.

(** ** JavaScript values as the code uses them *)

(** Truthiness of a [string | undefined]: [undefined] and [''] are falsy. *)
Definition truthy (v : option string) : bool :=
  match v with
  | Some s => negb (String.eqb s "")
  | None => false
  end.

(** [`${n}`] for a non-negative integer. *)
Definition string_of_nat (n : nat) : string :=
  NilEmpty.string_of_uint (Nat.to_uint n).

Definition newline : string := String (Ascii.ascii_of_nat 10) EmptyString.
Definition dquote : string := String (Ascii.ascii_of_nat 34) EmptyString.

(** ** The TypeScript compiler API (data) *)

Record SourceFile := { sf_fileName : string; sf_text : string }.

Record LineAndCharacter := { line : nat; character : nat }.

(** [messageText: string | DiagnosticMessageChain]. *)
#[warnings="-register-all"]
Inductive DiagnosticMessageChain :=
| MessageChain (messageText : string) (next : list DiagnosticMessageChain).

Inductive MessageText :=
| MsgString (s : string)
| MsgChain (c : DiagnosticMessageChain).

(** [ts.Diagnostic], the fields the extension reads.  [start] is read as
    [diagnostic.start!], and only when [file] is present. *)
Record Diagnostic := {
  file : option SourceFile;
  start : nat;
  messageText : MessageText;
}.

(** The two pure functions of the compiler API that the extension calls. *)
Class TypeScriptApi := {
  getLineAndCharacterOfPosition : SourceFile → nat → LineAndCharacter;
  flattenDiagnosticMessageText : MessageText → string → string;
}.

(** *** A reference implementation of the interface *)

(** Number of line breaks among the first [pos] characters, and the column. *)
Fixpoint lineAndCharacter (text : string) (pos : nat) (l c : nat) : LineAndCharacter :=
  match pos, text with
  | S pos', String a text' =>
      if Ascii.eqb a (Ascii.ascii_of_nat 10)
      then lineAndCharacter text' pos' (S l) 0
      else lineAndCharacter text' pos' l (S c)
  | _, _ => {| line := l; character := c |}
  end.

Fixpoint indentation (n : nat) : string :=
  match n with
  | 0 => ""
  | S n' => "  " +:+ indentation n'
  end.

Fixpoint flattenChain (c : DiagnosticMessageChain) (newLine : string) (indent : nat) : string :=
  match c with
  | MessageChain msg kids =>
      (match indent with 0 => "" | _ => newLine +:+ indentation indent end)
      +:+ msg
      +:+ (fix kidsText (ks : list DiagnosticMessageChain) : string :=
             match ks with
             | [] => ""
             | k :: ks' => flattenChain k newLine (S indent) +:+ kidsText ks'
             end) kids
  end.

#[export] Instance ts_reference : TypeScriptApi := {|
  getLineAndCharacterOfPosition sf pos := lineAndCharacter (sf_text sf) pos 0 0;
  flattenDiagnosticMessageText m newLine :=
    match m with
    | MsgString s => s
    | MsgChain c => flattenChain c newLine 0
    end;
|}.

(** ** getErrorMessageForLine and the picker's entries *)

(** An item of the quick pick. *)
Record ErrorLine := {
  el_label : string;
  el_line : nat;
  el_character : nat;
  el_error : string;
}.

Section Lookup.
Context `{TypeScriptApi}.

(** [diagnostic.file ? diagnostic.file.getLineAndCharacterOfPosition(diagnostic.start!)
    : {line: 0, character: 0}] *)
Definition position (diagnostic : Diagnostic) : LineAndCharacter :=
  match file diagnostic with
  | Some f => getLineAndCharacterOfPosition f (start diagnostic)
  | None => {| line := 0; character := 0 |}
  end.

Definition flattened (diagnostic : Diagnostic) : string :=
  flattenDiagnosticMessageText (messageText diagnostic) newline.

(** The [for ... of] loop: the first diagnostic on [line] wins. *)
Fixpoint getErrorMessageForLine (ln : nat) (diagnostics : list Diagnostic) : option string :=
  match diagnostics with
  | [] => None
  | diagnostic :: rest =>
      if Nat.eqb (line (position diagnostic)) ln
      then Some (flattened diagnostic)
      else getErrorMessageForLine ln rest
  end.

Definition errorLine (diagnostic : Diagnostic) : ErrorLine :=
  let lc := position diagnostic in
  let error := flattened diagnostic in
  {| el_label := "Line " +:+ string_of_nat (line lc + 1) +:+ ": " +:+ error;
     el_line := line lc;
     el_character := character lc;
     el_error := error |}.

Definition errorLines (diagnostics : list Diagnostic) : list ErrorLine :=
  map errorLine diagnostics.
End Lookup.

(** ** The editor host, the compiler service and the completion service *)

(** [vscode.TextDocument]: the lines of the buffer and its line separator. *)
Record TextDocument := {
  languageId : string;
  fileName : string;
  eol : string;
  lines : list string;
}.

Record TextEditor := { document : TextDocument }.

Definition getText (doc : TextDocument) : string := String.concat (eol doc) (lines doc).

(** A thrown JavaScript value, by its kind and message. What else the value
    of a rejected request carries (the client's error holds the request
    configuration, headers included) is not part of it; no statement below
    is about the content of a logged error. *)
Inductive Error :=
| TypeError (message : string)
| IllegalArgument (message : string)
| ServiceError (message : string).

(** Compiler options: the extension only sets [noEmit]; the rest comes from
    the parsed [tsconfig.json] and is passed through untouched. *)
Record CompilerOptions := { noEmit : option bool; fromConfig : list (string * string) }.

Record ConfigFile := { config : option string }.
Record ParseConfigHost := { useCaseSensitiveFileNames : bool }.
Record ParsedCommandLine := { options : CompilerOptions }.
Record Program := { rootNames : list string; programOptions : CompilerOptions }.

(** The OpenAI client: request and response of [createChatCompletion]. *)
Record Configuration := { cfg_apiKey : string }.

Record ChatCompletionRequestMessage := { role : string; content : string }.

Record CreateChatCompletionRequest := {
  model : string;
  messages : list ChatCompletionRequestMessage;
  max_tokens : nat;
  n : nat;
  temperature : Q;
}.

Record ChatCompletionResponseMessage := { rsp_role : string; rsp_content : option string }.
Record Choice := { message : option ChatCompletionResponseMessage }.
Record CreateChatCompletionResponse := { choices : option (list Choice) }.
Record AxiosResponse := { data : option CreateChatCompletionResponse }.

(** What [console.log] is given. *)
Inductive LogValue :=
| LogString (s : string)
| LogNumber (k : nat)
| LogError (e : Error)
| LogDiagnostics (ds : list Diagnostic).

(** Every call that leaves the extension, with its arguments. *)
Inductive Call :=
| ActiveTextEditor
| WorkspaceFolders
| ShowErrorMessage (msg : string)
| ShowInformationMessage (msg : string)
| ShowQuickPick (items : list ErrorLine) (placeHolder : string)
| ShowInputBox (prompt : string) (password : bool)
| CreateWebviewPanel (viewType title : string)
| SetWebviewHtml (html : string)
| SecretsGet (key : string)
| SecretsStore (key value : string)
| ConsoleLog (args : list LogValue)
| FindConfigFile (searchPath configName : string)
| ReadConfigFile (path : string)
| ParseJsonConfigFileContent (json : option string) (host : ParseConfigHost)
    (basePath : string) (existingOptions : CompilerOptions)
| CreateProgram (names : list string) (opts : CompilerOptions)
| GetSourceFile (program : Program) (name : string)
| GetSemanticDiagnostics (program : Program) (sourceFile : SourceFile)
| CreateChatCompletion (configuration : Configuration) (request : CreateChatCompletionRequest).

(** The outside world during one command invocation: what the user does,
    what is on disk, what is in secret storage, how the endpoint answers. *)
Record World := {
  w_editors : list (option TextEditor);
  w_workspaceFolders : option (list string);
  w_configFile : option string;
  w_config : ConfigFile;
  w_parsed : ParsedCommandLine;
  w_sourceFile : option SourceFile;
  w_diagnostics : list Diagnostic;
  w_pick : option nat;
  w_input : option string;
  w_secrets : gmap string string;
  w_completion : Configuration → CreateChatCompletionRequest → Error + option AxiosResponse;
}.

Definition set_editors (es : list (option TextEditor)) (w : World) : World :=
  {| w_editors := es; w_workspaceFolders := w_workspaceFolders w;
     w_configFile := w_configFile w; w_config := w_config w; w_parsed := w_parsed w;
     w_sourceFile := w_sourceFile w; w_diagnostics := w_diagnostics w;
     w_pick := w_pick w; w_input := w_input w; w_secrets := w_secrets w;
     w_completion := w_completion w |}.

Definition set_secrets (s : gmap string string) (w : World) : World :=
  {| w_editors := w_editors w; w_workspaceFolders := w_workspaceFolders w;
     w_configFile := w_configFile w; w_config := w_config w; w_parsed := w_parsed w;
     w_sourceFile := w_sourceFile w; w_diagnostics := w_diagnostics w;
     w_pick := w_pick w; w_input := w_input w; w_secrets := s;
     w_completion := w_completion w |}.

(** *** The monad of the extension's code

    A computation reads and updates the world, records the calls it makes in
    order, and either returns a value or throws. *)

Inductive Outcome (A : Type) :=
| Returned (a : A)
| Thrown (e : Error).
Arguments Returned {A} a.
Arguments Thrown {A} e.

Record Run (A : Type) := MkRun { trace : list Call; after : World; outcome : Outcome A }.
Arguments MkRun {A} trace after outcome.
Arguments trace {A} r.
Arguments after {A} r.
Arguments outcome {A} r.

Definition Host (A : Type) : Type := World → Run A.

Definition ret {A} (a : A) : Host A := λ w, MkRun [] w (Returned a).

Definition throw {A} (e : Error) : Host A := λ w, MkRun [] w (Thrown e).

Definition bind {A B} (m : Host A) (k : A → Host B) : Host B := λ w,
  match m w with
  | MkRun t w' (Returned a) =>
      match k a w' with
      | MkRun t' w'' o => MkRun (t ++ t') w'' o
      end
  | MkRun t w' (Thrown e) => MkRun t w' (Thrown e)
  end.

(** [try { body } catch (err) { handler }] *)
Definition try_catch {A} (body : Host A) (handler : Error → Host A) : Host A := λ w,
  match body w with
  | MkRun t w' (Returned a) => MkRun t w' (Returned a)
  | MkRun t w' (Thrown e) =>
      match handler e w' with
      | MkRun t' w'' o => MkRun (t ++ t') w'' o
      end
  end.

(** A call that is answered from the world and leaves it unchanged. *)
Definition ask {A} (c : Call) (answer : World → A) : Host A := λ w,
  MkRun [c] w (Returned (answer w)).

Declare Scope host_scope.
Delimit Scope host_scope with host.
Notation "x <- m ;; k" := (bind m (λ x, k))
  (at level 100, m at next level, right associativity) : host_scope.
Notation "m ;; k" := (bind m (λ _, k))
  (at level 100, right associativity) : host_scope.
Local Open Scope host_scope.

(** *** The calls, as the code makes them *)

(** [vscode.window.activeTextEditor]: the editor that is active at this
    read; later reads see what became of it. *)
Definition activeTextEditor : Host (option TextEditor) := λ w,
  match w_editors w with
  | [] => MkRun [ActiveTextEditor] w (Returned None)
  | e :: es => MkRun [ActiveTextEditor] (set_editors es w) (Returned e)
  end.

Definition workspaceFolders : Host (option (list string)) :=
  ask WorkspaceFolders w_workspaceFolders.

Definition showErrorMessage (msg : string) : Host unit :=
  ask (ShowErrorMessage msg) (λ _, tt).

Definition showInformationMessage (msg : string) : Host unit :=
  ask (ShowInformationMessage msg) (λ _, tt).

(** The picker resolves to one of the items it was given, or to [undefined]. *)
Definition showQuickPick (items : list ErrorLine) (placeHolder : string)
  : Host (option ErrorLine) :=
  ask (ShowQuickPick items placeHolder) (λ w, i ← w_pick w; items !! i).

Definition showInputBox (prompt : string) (password : bool) : Host (option string) :=
  ask (ShowInputBox prompt password) w_input.

Definition secrets_get (key : string) : Host (option string) :=
  ask (SecretsGet key) (λ w, w_secrets w !! key).

Definition secrets_store (key value : string) : Host unit := λ w,
  MkRun [SecretsStore key value] (set_secrets (<[key := value]> (w_secrets w)) w)
        (Returned tt).

Definition console_log (args : list LogValue) : Host unit :=
  ask (ConsoleLog args) (λ _, tt).

Definition findConfigFile (searchPath configName : string) : Host (option string) :=
  ask (FindConfigFile searchPath configName) w_configFile.

Definition readConfigFile (path : string) : Host ConfigFile :=
  ask (ReadConfigFile path) w_config.

Definition parseJsonConfigFileContent (json : option string) (host : ParseConfigHost)
    (basePath : string) (existingOptions : CompilerOptions) : Host ParsedCommandLine :=
  ask (ParseJsonConfigFileContent json host basePath existingOptions) w_parsed.

Definition createProgram (names : list string) (opts : CompilerOptions) : Host Program :=
  ask (CreateProgram names opts) (λ _, {| rootNames := names; programOptions := opts |}).

Definition getSourceFile (program : Program) (name : string) : Host (option SourceFile) :=
  ask (GetSourceFile program name) w_sourceFile.

Definition getSemanticDiagnostics (program : Program) (sourceFile : SourceFile)
  : Host (list Diagnostic) :=
  ask (GetSemanticDiagnostics program sourceFile) w_diagnostics.

(** [await openai.createChatCompletion(...)]: resolves or rejects. The code
    sets no timeout: an endpoint that never answers leaves the run suspended
    at this call, after the calls made so far, which are a prefix of the
    trace given here. *)
Definition createChatCompletion (configuration : Configuration)
    (request : CreateChatCompletionRequest) : Host (option AxiosResponse) := λ w,
  MkRun [CreateChatCompletion configuration request] w
        (match w_completion w configuration request with
         | inl e => Thrown e
         | inr response => Returned response
         end).

(** [document.lineAt(line).text]; the host throws when [line] is not a line
    of the document. *)
Definition lineAt (doc : TextDocument) (ln : nat) : Host string :=
  match lines doc !! ln with
  | Some text => ret text
  | None => throw (IllegalArgument "Illegal value for `line`")
  end.

(** ** displaySuggestion *)

Definition quoted (s : string) : string := dquote +:+ s +:+ dquote.

Definition suggestionHtml (suggestion : string) : string :=
  String.concat newline
    [ "";
      "    <!DOCTYPE html>";
      "    <html lang=" +:+ quoted "en" +:+ ">";
      "    <head>";
      "      <meta charset=" +:+ quoted "UTF-8" +:+ ">";
      "      <meta name=" +:+ quoted "viewport" +:+ " content="
        +:+ quoted "width=device-width, initial-scale=1.0" +:+ ">";
      "      <title>OpenAI Suggestion</title>";
      "      <style>";
      "        body {";
      "          font-family: -apple-system, BlinkMacSystemFont, " +:+ quoted "Segoe WPC"
        +:+ ", " +:+ quoted "Segoe UI" +:+ ", " +:+ quoted "Ubuntu" +:+ ", "
        +:+ quoted "Droid Sans" +:+ ", sans-serif;";
      "          margin: 20px;";
      "          line-height: 1.6;";
      "          font-size: 16px;";
      "          color: white;";
      "        }";
      "      </style>";
      "    </head>";
      "    <body>";
      "      <h1>Suggested Solution</h1>";
      "      <h1>" +:+ suggestion +:+ "</h1>";
      "    </body>";
      "    </html>";
      "  " ].

Definition displaySuggestion (suggestion : string) : Host unit :=
  ask (CreateWebviewPanel "openaiSuggestion" "OpenAI Suggestion") (λ _, tt);;
  ask (SetWebviewHtml (suggestionHtml suggestion)) (λ _, tt).

(** ** getOpenAISuggestion *)

Definition prompt (error codeSnippet lineSnippet : string) : string :=
  "Act as a TypeScript engineer. You received the following error: " +:+ error
  +:+ ". This is the line that it is thrown from: " +:+ lineSnippet
  +:+ ". Here is the surrounding code with the snippet I pasted included: " +:+ codeSnippet
  +:+ ". Explain the error with better detail from the context.".

Definition completionRequest (error codeSnippet lineSnippet : string)
  : CreateChatCompletionRequest :=
  {| model := "gpt-3.5-turbo";
     messages := [ {| role := "user"; content := prompt error codeSnippet lineSnippet |} ];
     max_tokens := 1000;
     n := 1;
     temperature := 0.5 |}.

(** [response?.data?.choices[0]?.message?.content]: the optional chain yields
    [undefined] as soon as a [?.] finds nothing; [choices[0]] itself is not
    guarded and throws when [choices] is missing. *)
Definition firstContent (response : option AxiosResponse) : Host (option string) :=
  match response with
  | None => ret None
  | Some r =>
      match data r with
      | None => ret None
      | Some d =>
          match choices d with
          | None => throw (TypeError "Cannot read properties of undefined (reading '0')")
          | Some cs => ret (c ← head cs; m ← message c; rsp_content m)
          end
      end
  end.

(** [v || ''] *)
Definition orEmpty (v : option string) : string :=
  match v with
  | Some s => if truthy v then s else ""
  | None => ""
  end.

Definition getOpenAISuggestion (error codeSnippet apiKey lineSnippet : string)
  : Host string :=
  let configuration := {| cfg_apiKey := apiKey |} in
  returned <- try_catch
    (console_log [LogString error; LogString codeSnippet; LogString lineSnippet];;
     response <- createChatCompletion configuration
                   (completionRequest error codeSnippet lineSnippet);;
     found <- firstContent response;;
     let suggestion := orEmpty found in
     ret (Some suggestion))
    (λ err, console_log [LogError err];; ret None);;
  match returned with
  | Some suggestion => ret suggestion
  | None => ret ""
  end.

(** ** getTypescriptErrors *)

(** Narrowing by [if (v)]: the value, when it is truthy. *)
Definition whenTruthy (v : option string) : option string :=
  if truthy v then v else None.

Section Workflow.
Context `{TypeScriptApi}.

(** The result is [Promise<any>]: a list of diagnostics, or [undefined]
    ([None]) after a bare [return;]. *)
Definition getTypescriptErrors (doc : TextDocument) : Host (option (list Diagnostic)) :=
  folders <- workspaceFolders;;
  match folders with
  | None =>
      showErrorMessage "No workspace folder is open.";;
      ret (Some [])
  | Some folders =>
    workspaceRoot <- match head folders with
                     | Some folder => ret folder
                     | None => throw (TypeError "Cannot read properties of undefined (reading 'uri')")
                     end;;
    tsConfigFile <- findConfigFile workspaceRoot "tsconfig.json";;
    match whenTruthy tsConfigFile with
    | None =>
        showErrorMessage "No tsconfig.json file found in the workspace.";;
        ret (Some [])
    | Some tsConfigFile =>
      cfg <- readConfigFile tsConfigFile;;
      let parseConfigHost := {| useCaseSensitiveFileNames := true |} in
      parsed <- parseJsonConfigFileContent (config cfg) parseConfigHost workspaceRoot
                  {| noEmit := Some true; fromConfig := [] |};;
      program <- createProgram [fileName doc] (options parsed);;
      sourceFile <- getSourceFile program (fileName doc);;
      match sourceFile with
      | None =>
          showErrorMessage "Failed to retrieve the SourceFile object.";;
          ret (Some [])
      | Some sourceFile =>
        diagnostics <- getSemanticDiagnostics program sourceFile;;
        let errorLines := errorLines diagnostics in
        selectedErrorLine <- showQuickPick errorLines
                               "Select an error line to get a suggestion from OpenAI";;
        match selectedErrorLine with
        | None => ret (Some diagnostics)
        | Some selectedErrorLine =>
          let errorMessage := getErrorMessageForLine (el_line selectedErrorLine) diagnostics in
          match whenTruthy errorMessage with
          | None =>
              showErrorMessage "No error found on the selected line.";;
              ret (Some diagnostics)
          | Some errorMessage =>
            apiKey <- secrets_get "apiKey";;
            match whenTruthy apiKey with
            | None =>
                showErrorMessage "API Key not found. Please store your API Key first.";;
                ret None
            | Some apiKey =>
              activeEditor <- activeTextEditor;;
              match activeEditor with
              | None =>
                  showErrorMessage "No active editor found.";;
                  ret None
              | Some activeEditor =>
                let document := document activeEditor in
                console_log [LogString ("Error message for line "
                                        +:+ string_of_nat (el_line selectedErrorLine + 1)
                                        +:+ ": " +:+ errorMessage)];;
                codeSnippet <- lineAt document (el_line selectedErrorLine);;
                let fileContent := getText document in
                console_log [LogString "calling"];;
                suggestion <- getOpenAISuggestion errorMessage codeSnippet apiKey fileContent;;
                displaySuggestion suggestion;;
                ret (Some diagnostics)
              end
            end
          end
        end
      end
    end
  end.

(** ** activate: the two commands *)

(** The handler of [extension.getTsErrors]. *)
Definition getTsErrors : Host unit :=
  activeEditor <- activeTextEditor;;
  match activeEditor with
  | None => showErrorMessage "No active editor found."
  | Some activeEditor =>
    if negb (String.eqb (languageId (document activeEditor)) "typescript")
    then showErrorMessage "This command only works with TypeScript files."
    else
      tsErrors <- getTypescriptErrors (document activeEditor);;
      match tsErrors with
      | None => throw (TypeError "Cannot read properties of undefined (reading 'length')")
      | Some tsErrors =>
        if Nat.eqb (length tsErrors) 0
        then showInformationMessage "No TypeScript errors found."
        else
          showErrorMessage ("Found " +:+ string_of_nat (length tsErrors)
                            +:+ " TypeScript errors.");;
          console_log [LogNumber 1; LogDiagnostics tsErrors]
      end
  end.

(** The handler of [extension.storeApiKey]. *)
Definition storeApiKey : Host unit :=
  apiKey <- showInputBox "Enter your API Key" true;;
  match whenTruthy apiKey with
  | Some apiKey =>
      secrets_store "apiKey" apiKey;;
      showInformationMessage "API Key stored successfully."
  | None => showErrorMessage "No API Key provided."
  end.

(** [activate] registers the two handlers under their command identifiers. *)
Definition activate : list (string * Host unit) :=
  [ ("extension.getTsErrors", getTsErrors);
    ("extension.storeApiKey", storeApiKey) ].

End Workflow.

(** ** Vocabulary of the statements *)

(** A run whose trace starts with the calls [t]. *)
Definition prepend {A} (t : list Call) (r : Run A) : Run A :=
  MkRun (t ++ trace r) (after r) (outcome r).

Definition isCompletion (c : Call) : bool :=
  match c with
  | CreateChatCompletion _ _ => true
  | _ => false
  end.

Definition isQuickPick (c : Call) : bool :=
  match c with
  | ShowQuickPick _ _ => true
  | _ => false
  end.

(** The picker was presented to the user. *)
Definition picker_shown (t : list Call) : Prop := existsb isQuickPick t = true.

(** The requests that a trace sends to the completion endpoint. *)
Definition completionRequests (t : list Call) : list CreateChatCompletionRequest :=
  omap (λ c, match c with
             | CreateChatCompletion _ request => Some request
             | _ => None
             end) t.

(** "The first candidate's message content", read off a response in the
    words of the specification: absent as soon as any part is absent. *)
Definition firstCandidateContent (response : option AxiosResponse) : option string :=
  r ← response; d ← data r; cs ← choices d; c ← head cs; m ← message c; rsp_content m.

(** The error that reaches the [catch] block of [getOpenAISuggestion]. *)
Definition caught (answer : Error + option AxiosResponse) : option Error :=
  match answer with
  | inl e => Some e
  | inr (Some {| data := Some {| choices := None |} |}) =>
      Some (TypeError "Cannot read properties of undefined (reading '0')")
  | inr _ => None
  end.

(** What the function returns, given the endpoint's answer. *)
Definition suggestionFor (answer : Error + option AxiosResponse) : string :=
  match answer with
  | inl _ => ""
  | inr response => default "" (firstCandidateContent response)
  end.

(** [parts] occur in [s] one after the other, without overlap. *)
Fixpoint occurs_in_order (parts : list string) (s : string) : Prop :=
  match parts with
  | [] => True
  | p :: ps => ∃ before rest, s = before +:+ p +:+ rest ∧ occurs_in_order ps rest
  end.

(** [s] without [p] in front, when [p] is in front. *)
Fixpoint strip_prefix (p s : string) : option string :=
  match p, s with
  | EmptyString, _ => Some s
  | String a p', String b s' => if Ascii.eqb a b then strip_prefix p' s' else None
  | String _ _, EmptyString => None
  end.

(** What follows the leftmost occurrence of [p] in [s]. *)
Fixpoint after_first (p s : string) : option string :=
  match strip_prefix p s with
  | Some rest => Some rest
  | None =>
      match s with
      | EmptyString => None
      | String _ s' => after_first p s'
      end
  end.

(** Leftmost matching decides [occurs_in_order]. *)
Fixpoint occurs_in_orderb (parts : list string) (s : string) : bool :=
  match parts with
  | [] => true
  | p :: ps =>
      match after_first p s with
      | Some rest => occurs_in_orderb ps rest
      | None => false
      end
  end.

(** The collection step got as far as the diagnostics: a workspace is
    open, a configuration file was found and the file was loaded. *)
Inductive Collected (w : World) (root path : string) (sourceFile : SourceFile) : Prop :=
| collected (others : list string) :
    w_workspaceFolders w = Some (root :: others) →
    w_configFile w = Some path →
    path ≠ "" →
    w_sourceFile w = Some sourceFile →
    Collected w root path sourceFile.

(** The collection step failed, and the message it shows for the failure. *)
Inductive CollectionFailure (w : World) : string → Prop :=
| NoWorkspace :
    w_workspaceFolders w = None →
    CollectionFailure w "No workspace folder is open."
| NoConfig (root : string) (others : list string) :
    w_workspaceFolders w = Some (root :: others) →
    w_configFile w = None →
    CollectionFailure w "No tsconfig.json file found in the workspace."
| NoSourceFile (root : string) (others : list string) (path : string) :
    w_workspaceFolders w = Some (root :: others) →
    w_configFile w = Some path →
    path ≠ "" →
    w_sourceFile w = None →
    CollectionFailure w "Failed to retrieve the SourceFile object.".

(** ** Concrete worlds *)

Definition demo_source : SourceFile :=
  {| sf_fileName := "/ws/a.ts";
     sf_text := String.concat newline ["let a = 1;"; "let b = 2;"; "foo();"; ""] |}.

Definition demo_document : TextDocument :=
  {| languageId := "typescript"; fileName := "/ws/a.ts"; eol := newline;
     lines := ["let a = 1;"; "let b = 2;"; "foo();"; ""] |}.

(** [foo] is not declared: one diagnostic, on the third line. *)
Definition cannot_find_foo : Diagnostic :=
  {| file := Some demo_source; start := 22;
     messageText := MsgString "Cannot find name 'foo'." |}.

Definition demo_options : CompilerOptions := {| noEmit := Some true; fromConfig := [] |}.

Definition demo_world (folders : option (list string)) (configFile : option string)
    (sourceFile : option SourceFile) (diagnostics : list Diagnostic) (pick : option nat)
    (secrets : gmap string string)
    (completion : Configuration → CreateChatCompletionRequest → Error + option AxiosResponse)
  : World :=
  {| w_editors := [Some {| document := demo_document |}; Some {| document := demo_document |}];
     w_workspaceFolders := folders;
     w_configFile := configFile;
     w_config := {| config := Some "{}" |};
     w_parsed := {| options := demo_options |};
     w_sourceFile := sourceFile;
     w_diagnostics := diagnostics;
     w_pick := pick;
     w_input := None;
     w_secrets := secrets;
     w_completion := completion |}.

Definition endpoint_down
  : Configuration → CreateChatCompletionRequest → Error + option AxiosResponse :=
  λ _ _, inl (ServiceError "Request failed with status code 503").

Definition endpoint_says (text : string)
  : Configuration → CreateChatCompletionRequest → Error + option AxiosResponse :=
  λ _ _, inr (Some {| data := Some {| choices := Some
         [ {| message := Some {| rsp_role := "assistant"; rsp_content := Some text |} |} ] |} |}).

(** A project with a configuration and a loadable file. *)
Definition project_world (diagnostics : list Diagnostic) (pick : option nat)
    (secrets : gmap string string)
    (completion : Configuration → CreateChatCompletionRequest → Error + option AxiosResponse)
  : World :=
  demo_world (Some ["/ws"]) (Some "/ws/tsconfig.json") (Some demo_source)
             diagnostics pick secrets completion.

(** Two assignments with the wrong type on one line. *)
Definition same_line_source : SourceFile :=
  {| sf_fileName := "/ws/b.ts";
     sf_text := "let x: number = 'a'; let y: string = 1;" |}.

Definition wrong_number : Diagnostic :=
  {| file := Some same_line_source; start := 4;
     messageText := MsgString "Type 'string' is not assignable to type 'number'." |}.

Definition wrong_string : Diagnostic :=
  {| file := Some same_line_source; start := 25;
     messageText := MsgString "Type 'number' is not assignable to type 'string'." |}.

Definition same_line_diagnostics : list Diagnostic := [wrong_number; wrong_string].

Definition with_input (input : option string) (w : World) : World :=
  {| w_editors := w_editors w; w_workspaceFolders := w_workspaceFolders w;
     w_configFile := w_configFile w; w_config := w_config w; w_parsed := w_parsed w;
     w_sourceFile := w_sourceFile w; w_diagnostics := w_diagnostics w;
     w_pick := w_pick w; w_input := input; w_secrets := w_secrets w;
     w_completion := w_completion w |}.

(** ** Vocabulary of the further properties *)

Definition isPanel (c : Call) : bool :=
  match c with
  | CreateWebviewPanel _ _ => true
  | _ => false
  end.

Definition isSecretsStore (c : Call) : bool :=
  match c with
  | SecretsStore _ _ => true
  | _ => false
  end.

(** What a trace writes to the console, entry by entry, apart from the
    entries that print a caught error ([console.log(err)]). *)
Definition ownLogEntries (t : list Call) : list (list LogValue) :=
  omap (λ c, match c with
             | ConsoleLog [LogError _] => None
             | ConsoleLog args => Some args
             | _ => None
             end) t.

(** How many webview panels a trace opens. *)
Definition panelsOpened (t : list Call) : nat := length (List.filter isPanel t).

(** A usable credential: a non-empty string under [apiKey]. *)
Definition KeyStored (w : World) (key : string) : Prop :=
  w_secrets w !! "apiKey" = Some key ∧ key ≠ "".

(** What the command shows after [getTypescriptErrors] has ended. *)
Definition report (result : Outcome (option (list Diagnostic))) : list Call :=
  match result with
  | Returned (Some tsErrors) =>
      if Nat.eqb (length tsErrors) 0
      then [ShowInformationMessage "No TypeScript errors found."]
      else [ ShowErrorMessage ("Found " +:+ string_of_nat (length tsErrors)
                               +:+ " TypeScript errors.");
             ConsoleLog [LogNumber 1; LogDiagnostics tsErrors] ]
  | _ => []
  end.

(** How the command ends after [getTypescriptErrors] has ended. *)
Definition commandOutcome (result : Outcome (option (list Diagnostic))) : Outcome unit :=
  match result with
  | Returned (Some _) => Returned tt
  | Returned None =>
      Thrown (TypeError "Cannot read properties of undefined (reading 'length')")
  | Thrown e => Thrown e
  end.

(** The editor that [vscode.window.activeTextEditor] yields at the next read. *)
Definition currentEditor (w : World) : option TextEditor :=
  match w_editors w with
  | [] => None
  | editor :: _ => editor
  end.

Section FurtherVocabulary.
Context `{TypeScriptApi}.

(** The calls of a collection that succeeds, up to and including the picker. *)
Definition collectionCalls (doc : TextDocument) (w : World) (root path : string)
    (sourceFile : SourceFile) : list Call :=
  let program := {| rootNames := [fileName doc]; programOptions := options (w_parsed w) |} in
  [ WorkspaceFolders;
    FindConfigFile root "tsconfig.json";
    ReadConfigFile path;
    ParseJsonConfigFileContent (config (w_config w))
      {| useCaseSensitiveFileNames := true |} root
      {| noEmit := Some true; fromConfig := [] |};
    CreateProgram [fileName doc] (options (w_parsed w));
    GetSourceFile program (fileName doc);
    GetSemanticDiagnostics program sourceFile;
    ShowQuickPick (errorLines (w_diagnostics w))
      "Select an error line to get a suggestion from OpenAI" ].

(** The user picks the entry [e] of the picker, and looking its line up
    again yields the non-empty [message]. *)
Inductive Chosen (w : World) (e : ErrorLine) (message : string) : Prop :=
| chosen (i : nat) :
    w_pick w = Some i →
    errorLines (w_diagnostics w) !! i = Some e →
    getErrorMessageForLine (el_line e) (w_diagnostics w) = Some message →
    message ≠ "" →
    Chosen w e message.

End FurtherVocabulary.

(** A buffer that is shorter than the file on disk. *)
Definition unsaved_document : TextDocument :=
  {| languageId := "typescript"; fileName := "/ws/a.ts"; eol := newline;
     lines := ["let a = 1;"] |}.

Definition with_editors (editors : list (option TextEditor)) (w : World) : World :=
  set_editors editors w.

Definition react_document : TextDocument :=
  {| languageId := "typescriptreact"; fileName := "/ws/a.tsx"; eol := newline;
     lines := ["foo();"] |}.

(** A project with one diagnostic, a stored key, the user selecting the
    diagnostic, and an endpoint that answers. *)
Definition answered_world : World :=
  project_world [cannot_find_foo] (Some 0) {[ "apiKey" := "sk-test" ]}
    (endpoint_says "Declare foo before calling it.").

(** A storage that already holds a key and another secret, and a user who
    types a new key. *)
Definition rekey_world : World :=
  with_input (Some "sk-new")
    (project_world [] None {[ "other" := "kept"; "apiKey" := "sk-old" ]} endpoint_down).

(** A response without [choices]. *)
Definition endpoint_malformed
  : Configuration → CreateChatCompletionRequest → Error + option AxiosResponse :=
  λ _ _, inr (Some {| data := Some {| choices := None |} |}).

(** * Properties *)

(** ** Running the monad, one call at a time *)

Lemma trace_prepend {A} t (r : Run A) : trace (prepend t r) = t ++ trace r.
Proof. reflexivity. Qed.

Lemma outcome_prepend {A} t (r : Run A) : outcome (prepend t r) = outcome r.
Proof. reflexivity. Qed.

Lemma after_prepend {A} t (r : Run A) : after (prepend t r) = after r.
Proof. reflexivity. Qed.

Lemma prepend_prepend {A} t u (r : Run A) : prepend t (prepend u r) = prepend (t ++ u) r.
Proof. unfold prepend. cbn. by rewrite app_assoc. Qed.

Lemma prepend_run {A} t u w (o : Outcome A) : prepend t (MkRun u w o) = MkRun (t ++ u) w o.
Proof. reflexivity. Qed.

Lemma bind_ask {A B} c (f : World → A) (k : A → Host B) w :
  bind (ask c f) k w = prepend [c] (k (f w) w).
Proof. unfold bind, ask, prepend. by destruct (k (f w) w). Qed.

Lemma bind_ret {A B} (a : A) (k : A → Host B) w : bind (ret a) k w = k a w.
Proof. unfold bind, ret. by destruct (k a w). Qed.

Lemma bind_throw {A B} e (k : A → Host B) w : bind (throw e) k w = throw e w.
Proof. reflexivity. Qed.

Lemma bind_activeTextEditor {B} (k : option TextEditor → Host B) w :
  bind activeTextEditor k w =
  prepend [ActiveTextEditor]
    (match w_editors w with
     | [] => k None w
     | e :: es => k e (set_editors es w)
     end).
Proof.
  unfold bind, activeTextEditor, prepend.
  destruct (w_editors w) as [|e es]; cbn; by destruct (k _ _).
Qed.

Lemma bind_secrets_store {B} key value (k : unit → Host B) w :
  bind (secrets_store key value) k w =
  prepend [SecretsStore key value]
    (k tt (set_secrets (<[key := value]> (w_secrets w)) w)).
Proof. unfold bind, secrets_store, prepend. by destruct (k _ _). Qed.

Lemma bind_returns {A B} (m : Host A) (k : A → Host B) w t w' a :
  m w = MkRun t w' (Returned a) → bind m k w = prepend t (k a w').
Proof. intros E. unfold bind, prepend. rewrite E. by destruct (k a w'). Qed.

Lemma bind_throws {A B} (m : Host A) (k : A → Host B) w t w' e :
  m w = MkRun t w' (Thrown e) → bind m k w = MkRun t w' (Thrown e).
Proof. intros E. unfold bind. by rewrite E. Qed.

Ltac unfold_calls :=
  unfold workspaceFolders, findConfigFile, readConfigFile, parseJsonConfigFileContent,
    createProgram, getSourceFile, getSemanticDiagnostics, showQuickPick, secrets_get,
    showErrorMessage, showInformationMessage, showInputBox, console_log.

Ltac host_step :=
  first [ rewrite bind_ask | rewrite bind_ret | rewrite bind_throw
        | rewrite bind_activeTextEditor | rewrite bind_secrets_store ];
  cbv beta.

Ltac host_flat :=
  repeat first [ rewrite prepend_prepend | rewrite prepend_run ];
  cbn [app trace after outcome prepend ask ret throw
       set_editors set_secrets w_completion w_secrets w_diagnostics];
  rewrite ?app_nil_r.

(** ** Truthiness *)

Lemma whenTruthy_Some v s : whenTruthy v = Some s ↔ v = Some s ∧ s ≠ "".
Proof.
  unfold whenTruthy, truthy. destruct v as [x|]; [|intuition congruence].
  destruct (String.eqb_spec x "") as [->|Hne]; cbn; intuition congruence.
Qed.

Lemma whenTruthy_None v : whenTruthy v = None ↔ v = None ∨ v = Some "".
Proof.
  unfold whenTruthy, truthy. destruct v as [x|]; [|intuition congruence].
  destruct (String.eqb_spec x "") as [->|Hne]; cbn; intuition congruence.
Qed.

Lemma orEmpty_default v : orEmpty v = default "" v.
Proof.
  unfold orEmpty, truthy. destruct v as [x|]; [|done].
  destruct (String.eqb_spec x "") as [->|Hne]; cbn; congruence.
Qed.

(** ** Strings: occurrence in order *)

Lemma append_cons x (a b : string) : String x a +:+ b = String x (a +:+ b).
Proof. reflexivity. Qed.

Lemma append_empty_l (a : string) : "" +:+ a = a.
Proof. reflexivity. Qed.

Lemma append_assoc (a b c : string) : (a +:+ b) +:+ c = a +:+ b +:+ c.
Proof. induction a as [|x a IH]; [done|]. by rewrite !append_cons, IH. Qed.

Lemma length_append (a b : string) :
  String.length (a +:+ b) = String.length a + String.length b.
Proof. induction a as [|x a IH]; [done|]. rewrite append_cons. cbn. by rewrite IH. Qed.

(** Two ways to cut one string: one cut point lies before the other. *)
Lemma append_eq_append (a b c d : string) :
  a +:+ b = c +:+ d →
  ∃ z, (a = c +:+ z ∧ d = z +:+ b) ∨ (c = a +:+ z ∧ b = z +:+ d).
Proof.
  revert c. induction a as [|x a IH]; intros c E.
  - exists c. right. by rewrite append_empty_l in *.
  - destruct c as [|y c].
    + exists (String x a). left. by rewrite append_empty_l in *.
    + rewrite !append_cons in E. injection E as -> E.
      destruct (IH _ E) as [z [[-> ->]|[-> ->]]]; exists z; [left | right];
        by rewrite append_cons.
Qed.

Lemma strip_prefix_Some p s rest : strip_prefix p s = Some rest ↔ s = p +:+ rest.
Proof.
  revert s. induction p as [|a p IH]; intros s; cbn [strip_prefix].
  - rewrite append_empty_l. intuition congruence.
  - rewrite append_cons. destruct s as [|b s]; [intuition congruence|].
    destruct (Ascii.eqb_spec a b) as [->|Hne].
    + rewrite IH. intuition congruence.
    + intuition congruence.
Qed.

Lemma after_first_sound p s rest :
  after_first p s = Some rest → ∃ before, s = before +:+ p +:+ rest.
Proof.
  induction s as [|b s IH]; cbn [after_first].
  - destruct (strip_prefix p "") as [r|] eqn:E; [|done].
    intros [= ->]. apply strip_prefix_Some in E. by exists "".
  - destruct (strip_prefix p (String b s)) as [r|] eqn:E.
    + intros [= ->]. apply strip_prefix_Some in E. by exists "".
    + intros [before ->]%IH. by exists (String b before).
Qed.

(** The leftmost occurrence leaves the longest remainder. *)
Lemma after_first_complete p before rest :
  ∃ rest' extra, after_first p (before +:+ p +:+ rest) = Some rest'
                 ∧ rest' = extra +:+ rest.
Proof.
  induction before as [|b before IH].
  - exists rest, "". rewrite !append_empty_l.
    assert (strip_prefix p (p +:+ rest) = Some rest) as E by by apply strip_prefix_Some.
    destruct (p +:+ rest); cbn [after_first]; by rewrite E.
  - rewrite append_cons. cbn [after_first].
    destruct (strip_prefix p (String b (before +:+ p +:+ rest))) as [r|] eqn:E.
    + exists r. apply strip_prefix_Some in E.
      rewrite <- append_cons, <- append_assoc in E.
      destruct (append_eq_append _ _ _ _ E) as [z [[Hp ->]|[Hp Hr]]].
      * by exists z.
      * exists "". split; [done|]. rewrite append_empty_l.
        apply (f_equal String.length) in Hp. rewrite !length_append in Hp. cbn in Hp.
        destruct z; [by rewrite append_empty_l in Hr | cbn in Hp; lia].
    + destruct IH as (rest' & extra & -> & ->). by exists (extra +:+ rest), extra.
Qed.

Lemma occurs_in_order_extend parts extra s :
  occurs_in_order parts s → occurs_in_order parts (extra +:+ s).
Proof.
  destruct parts as [|p ps]; [done|]. cbn. intros (before & rest & -> & Hps).
  exists (extra +:+ before), rest. by rewrite append_assoc.
Qed.

Lemma occurs_in_orderb_spec parts s :
  occurs_in_orderb parts s = true ↔ occurs_in_order parts s.
Proof.
  revert s. induction parts as [|p ps IH]; intros s; cbn; [done|]. split.
  - destruct (after_first p s) as [rest|] eqn:E; [|done].
    intros Hps%IH. apply after_first_sound in E as [before ->]. by exists before, rest.
  - intros (before & rest & -> & Hps).
    destruct (after_first_complete p before rest) as (rest' & extra & -> & ->).
    apply IH. by apply occurs_in_order_extend.
Qed.

(** ** getOpenAISuggestion *)

(** The function always returns: it logs its arguments, sends one request,
    and logs the error if one reached the [catch] block. *)
Lemma getOpenAISuggestion_run error codeSnippet apiKey lineSnippet w :
  let configuration := {| cfg_apiKey := apiKey |} in
  let request := completionRequest error codeSnippet lineSnippet in
  getOpenAISuggestion error codeSnippet apiKey lineSnippet w =
  MkRun ([ ConsoleLog [LogString error; LogString codeSnippet; LogString lineSnippet];
           CreateChatCompletion configuration request ]
         ++ match caught (w_completion w configuration request) with
            | Some err => [ConsoleLog [LogError err]]
            | None => []
            end)
        w
        (Returned (suggestionFor (w_completion w configuration request))).
Proof.
  unfold getOpenAISuggestion, try_catch, bind, console_log, ask, createChatCompletion, ret.
  cbn. destruct (w_completion w _ _) as [e|[[[[[cs|]]|]]|]]; cbn; try done.
  by rewrite orEmpty_default.
Qed.

Lemma displaySuggestion_run suggestion w :
  displaySuggestion suggestion w =
  MkRun [ CreateWebviewPanel "openaiSuggestion" "OpenAI Suggestion";
          SetWebviewHtml (suggestionHtml suggestion) ] w (Returned tt).
Proof. reflexivity. Qed.

(** C7. Every completion request carries exactly one message, of role
    [user], the model identifier [gpt-3.5-turbo], at most 1000 output
    tokens, one candidate and temperature 0.5; the call returns the content
    of the first candidate's message, or the empty string when that content
    is absent (and, as C4 states, when the call fails). *)
Theorem completion_request_shape error codeSnippet apiKey lineSnippet w :
  let r := getOpenAISuggestion error codeSnippet apiKey lineSnippet w in
  ∃ request,
    completionRequests (trace r) = [request]
    ∧ messages request = [ {| role := "user";
                              content := prompt error codeSnippet lineSnippet |} ]
    ∧ model request = "gpt-3.5-turbo"
    ∧ max_tokens request = 1000
    ∧ n request = 1
    ∧ temperature request = 0.5%Q
    ∧ outcome r = Returned
        match w_completion w {| cfg_apiKey := apiKey |} request with
        | inr response => default "" (firstCandidateContent response)
        | inl _ => ""
        end.
Proof.
  cbv zeta. rewrite getOpenAISuggestion_run.
  exists (completionRequest error codeSnippet lineSnippet).
  cbn [trace outcome]. split; [|done].
  unfold completionRequests. rewrite omap_app. cbn [omap option_bind] .
  by destruct (caught _).
Qed.

(** ** The paths through getTypescriptErrors *)

Ltac workflow_step :=
  first [ host_step
        | erewrite bind_returns by apply getOpenAISuggestion_run
        | erewrite bind_returns by apply displaySuggestion_run ].

(** One goal per path, with the decisions taken along it as hypotheses. *)
Ltac workflow_cases w :=
  unfold getTypescriptErrors; unfold_calls; host_step;
  destruct (w_workspaceFolders w) as [[|wsRoot wsOthers]|] eqn:Hfolders; cbn [head];
  [ | repeat host_step;
      destruct (whenTruthy (w_configFile w)) as [cfgPath|] eqn:Hconfig;
      [ repeat host_step;
        destruct (w_sourceFile w) as [srcFile|] eqn:Hsource;
        [ repeat host_step;
          destruct (w_pick w ≫= _) as [selected|] eqn:Hpick;
          [ destruct (whenTruthy (getErrorMessageForLine _ _)) as [errorMessage|] eqn:Hmessage;
            [ repeat host_step;
              destruct (whenTruthy (w_secrets w !! "apiKey")) as [apiKey|] eqn:Hkey;
              [ repeat host_step;
                destruct (w_editors w) as [|[activeEditor|] laterEditors] eqn:Heditors;
                [ | repeat host_step; unfold lineAt;
                    destruct (lines (document activeEditor) !! _) as [codeSnippet|] eqn:Hline
                  | ]
              | ]
            | ]
          | ]
        | ]
      | ]
  | ];
  repeat workflow_step; host_flat.

(** Membership in a trace that is known call by call: the calls of another
    kind are ruled out, the others are left as cases. *)
Ltac in_trace Hin :=
  repeat first
    [ apply elem_of_nil in Hin; destruct Hin
    | apply elem_of_cons in Hin as [Hin|Hin]; [ try discriminate Hin | ]
    | apply elem_of_app in Hin as [Hin|Hin] ].

Section WorkflowFacts.
Context `{TypeScriptApi}.

Lemma getErrorMessageForLine_finds diagnostics d :
  d ∈ diagnostics →
  is_Some (getErrorMessageForLine (line (position d)) diagnostics).
Proof.
  induction 1 as [d rest|d d' rest _ IH]; cbn [getErrorMessageForLine].
  - by rewrite Nat.eqb_refl.
  - by destruct (Nat.eqb _ _).
Qed.

(** A selected entry whose message is falsy has the empty message: the
    lookup itself cannot come back empty-handed. *)
Lemma falsy_message_is_empty diagnostics i e :
  errorLines diagnostics !! i = Some e →
  whenTruthy (getErrorMessageForLine (el_line e) diagnostics) = None →
  getErrorMessageForLine (el_line e) diagnostics = Some "".
Proof.
  intros (d & -> & Hd%list_elem_of_lookup_2)%list_lookup_fmap_Some_1.
  intros [Hnone|Hempty]%whenTruthy_None; [|done].
  apply getErrorMessageForLine_finds in Hd as [m Hm]. cbn [errorLine el_line] in Hnone.
  congruence.
Qed.

(** C5. When nothing is stored under [apiKey], no request reaches the
    completion service; and once the user has selected an entry of the
    picker, the run ends right after the selection with an error message:
    after the credential lookup, with the message about the missing key and
    the result [undefined] (or, for an entry whose message text is empty,
    before the credential is even read). *)
Theorem missing_credential_aborts doc w :
  w_secrets w !! "apiKey" = None →
  let r := getTypescriptErrors doc w in
  completionRequests (trace r) = []
  ∧ (∀ i e,
       picker_shown (trace r) →
       w_pick w = Some i →
       errorLines (w_diagnostics w) !! i = Some e →
       ∃ before,
         (trace r = before ++
            [ ShowQuickPick (errorLines (w_diagnostics w))
                "Select an error line to get a suggestion from OpenAI";
              SecretsGet "apiKey";
              ShowErrorMessage "API Key not found. Please store your API Key first." ]
          ∧ outcome r = Returned None)
         ∨ (getErrorMessageForLine (el_line e) (w_diagnostics w) = Some ""
            ∧ trace r = before ++
                [ ShowQuickPick (errorLines (w_diagnostics w))
                    "Select an error line to get a suggestion from OpenAI";
                  ShowErrorMessage "No error found on the selected line." ])).
Proof.
  intros Hk r. subst r. split.
  - workflow_cases w; try reflexivity.
    rewrite Hk in Hkey. done.
  - intros i e Hshown Hi He.
    revert Hshown. unfold picker_shown. workflow_cases w; try discriminate.
    all: try (rewrite Hk in Hkey; done).
    all: rewrite Hi in Hpick; cbn [mbind option_bind] in Hpick.
    all: rewrite He in Hpick; simplify_eq.
    + intros _. eexists (_ :: _ :: _ :: _ :: _ :: _ :: _ :: []). by left.
    + intros _. eexists (_ :: _ :: _ :: _ :: _ :: _ :: _ :: []). right.
      split; [|done].
      by eapply falsy_message_is_empty.
Qed.

(** C4. A failing completion call does not escape [getOpenAISuggestion]:
    the error is logged and the empty string is returned; and whenever the
    workflow has sent the request and the call fails, the run goes on to
    present that empty suggestion and returns normally. *)
Theorem completion_failure_is_swallowed :
  (∀ error codeSnippet apiKey lineSnippet w e,
     w_completion w {| cfg_apiKey := apiKey |}
       (completionRequest error codeSnippet lineSnippet) = inl e →
     getOpenAISuggestion error codeSnippet apiKey lineSnippet w =
     MkRun [ ConsoleLog [LogString error; LogString codeSnippet; LogString lineSnippet];
             CreateChatCompletion {| cfg_apiKey := apiKey |}
               (completionRequest error codeSnippet lineSnippet);
             ConsoleLog [LogError e] ]
           w (Returned ""))
  ∧ (∀ doc w configuration request e,
       CreateChatCompletion configuration request ∈ trace (getTypescriptErrors doc w) →
       w_completion w configuration request = inl e →
       ∃ before,
         trace (getTypescriptErrors doc w) = before ++
           [ CreateChatCompletion configuration request;
             ConsoleLog [LogError e];
             CreateWebviewPanel "openaiSuggestion" "OpenAI Suggestion";
             SetWebviewHtml (suggestionHtml "") ]
         ∧ outcome (getTypescriptErrors doc w) = Returned (Some (w_diagnostics w))).
Proof.
  split.
  - intros error codeSnippet apiKey lineSnippet w e Hfail.
    rewrite getOpenAISuggestion_run. cbv zeta. by rewrite Hfail.
  - intros doc w configuration request e Hin Hfail. revert Hin.
    workflow_cases w; intros Hin; in_trace Hin.
    + injection Hin as -> ->. rewrite Hfail. cbn [caught suggestionFor app].
      by eexists (_ :: _ :: _ :: _ :: _ :: _ :: _ :: _ :: _ :: _ :: _ :: _ :: _ :: []).
    + destruct (caught _); in_trace Hin.
Qed.

(** Looking up the line of a displayed entry always finds a diagnostic; the
    branch that reports [No error found on the selected line.] is taken only
    on a found message that is the empty string, which [if (errorMessage)]
    takes for no message at all. *)
Lemma lookup_finds_selected_line :
  (∀ diagnostics e,
     e ∈ errorLines diagnostics →
     is_Some (getErrorMessageForLine (el_line e) diagnostics))
  ∧ (∀ doc w,
       ShowErrorMessage "No error found on the selected line."
         ∈ trace (getTypescriptErrors doc w) →
       ∃ i e, w_pick w = Some i
              ∧ errorLines (w_diagnostics w) !! i = Some e
              ∧ getErrorMessageForLine (el_line e) (w_diagnostics w) = Some "").
Proof.
  split.
  - intros diagnostics e (d & -> & Hd)%list_elem_of_fmap.
    by apply getErrorMessageForLine_finds.
  - intros doc w. workflow_cases w; intros Hin; in_trace Hin.
    + destruct (caught _); in_trace Hin.
    + destruct (w_pick w) as [i|] eqn:Hi; [|done]. cbn [mbind option_bind] in Hpick.
      exists i, selected. split_and!; [done..|].
      by eapply falsy_message_is_empty.
Qed.

(** What the lookup returns is the flattened message of a diagnostic of the
    list. *)
Lemma getErrorMessageForLine_from_list ln diagnostics found :
  getErrorMessageForLine ln diagnostics = Some found →
  ∃ d, d ∈ diagnostics ∧ flattened d = found.
Proof.
  induction diagnostics as [|d rest IH]; cbn [getErrorMessageForLine]; [done|].
  destruct (Nat.eqb _ _).
  - intros [= <-]. exists d. split; [apply list_elem_of_here | done].
  - intros (d' & Hd' & Hflat)%IH. exists d'. split; [by apply list_elem_of_further | done].
Qed.

(** C10. The compiler reports every diagnostic with a message, so that no
    flattened message text is empty. Then each displayed entry's line, looked
    up again in the same list, yields a non-empty message, and no run of
    [getTypescriptErrors], whatever the user selects, reaches the branch that
    shows [No error found on the selected line.]. *)
Theorem no_error_branch_is_unreachable doc w :
  (∀ d, d ∈ w_diagnostics w → flattened d ≠ "") →
  (∀ e, e ∈ errorLines (w_diagnostics w) →
        ∃ message, getErrorMessageForLine (el_line e) (w_diagnostics w) = Some message
                   ∧ message ≠ "")
  ∧ ShowErrorMessage "No error found on the selected line."
      ∉ trace (getTypescriptErrors doc w).
Proof.
  intros Hmessages. destruct lookup_finds_selected_line as [Hfound Hbranch]. split.
  - intros e [message Hm]%Hfound. exists message. split; [done|].
    apply getErrorMessageForLine_from_list in Hm as (d & Hd & <-). by apply Hmessages.
  - intros (i & e & _ & _ & Hempty)%Hbranch.
    apply getErrorMessageForLine_from_list in Hempty as (d & Hd & Hflat).
    by apply (Hmessages d).
Qed.

(** C6. With a workspace open and no [tsconfig.json] to be found, the
    function shows the error message and returns at once: the program is not
    created and no diagnostics are requested. *)
Theorem missing_config_aborts doc w root others :
  w_workspaceFolders w = Some (root :: others) →
  w_configFile w = None →
  getTypescriptErrors doc w =
  MkRun [ WorkspaceFolders;
          FindConfigFile root "tsconfig.json";
          ShowErrorMessage "No tsconfig.json file found in the workspace." ]
        w (Returned (Some [])).
Proof.
  intros Hroot Hnone. workflow_cases w; try congruence.
  all: try (rewrite Hnone in Hconfig; done).
  by simplify_eq.
Qed.

(** A failed collection: the message, and the empty list as the result. *)
Lemma getTypescriptErrors_failure doc w message :
  CollectionFailure w message →
  ∃ calls, getTypescriptErrors doc w =
           MkRun (calls ++ [ShowErrorMessage message]) w (Returned (Some [])).
Proof.
  intros [Hnone|root others Hroot Hnone|root others path Hroot Hpath Hne Hnone].
  - exists [WorkspaceFolders]. by workflow_cases w; try congruence.
  - exists [WorkspaceFolders; FindConfigFile root "tsconfig.json"].
    workflow_cases w; try congruence.
    all: try (rewrite Hnone in Hconfig; done).
    by simplify_eq.
  - eexists (_ :: _ :: _ :: _ :: _ :: _ :: []).
    workflow_cases w; try congruence; rewrite Hpath in Hconfig.
    + apply whenTruthy_Some in Hconfig as [[= ->] _]. by simplify_eq.
    + apply whenTruthy_None in Hconfig. intuition congruence.
Qed.

(** Nothing selected: the diagnostics are returned as they came. *)
Lemma getTypescriptErrors_dismissed doc w root path sourceFile :
  Collected w root path sourceFile →
  w_pick w ≫= (λ i, errorLines (w_diagnostics w) !! i) = None →
  let program := {| rootNames := [fileName doc]; programOptions := options (w_parsed w) |} in
  getTypescriptErrors doc w =
  MkRun [ WorkspaceFolders;
          FindConfigFile root "tsconfig.json";
          ReadConfigFile path;
          ParseJsonConfigFileContent (config (w_config w))
            {| useCaseSensitiveFileNames := true |} root
            {| noEmit := Some true; fromConfig := [] |};
          CreateProgram [fileName doc] (options (w_parsed w));
          GetSourceFile program (fileName doc);
          GetSemanticDiagnostics program sourceFile;
          ShowQuickPick (errorLines (w_diagnostics w))
            "Select an error line to get a suggestion from OpenAI" ]
        w (Returned (Some (w_diagnostics w))).
Proof.
  intros [others Hroot Hpath Hne Hsf] Hnothing program. subst program.
  workflow_cases w; try congruence; rewrite Hpath in Hconfig.
  - apply whenTruthy_Some in Hconfig as [[= ->] _]. by simplify_eq.
  - apply whenTruthy_None in Hconfig. intuition congruence.
Qed.

Lemma getTsErrors_typescript w editor editors :
  w_editors w = Some editor :: editors →
  languageId (document editor) = "typescript" →
  getTsErrors w =
  prepend [ActiveTextEditor]
    (bind (getTypescriptErrors (document editor))
       (λ tsErrors,
          match tsErrors with
          | None => throw (TypeError "Cannot read properties of undefined (reading 'length')")
          | Some tsErrors =>
              if Nat.eqb (length tsErrors) 0
              then showInformationMessage "No TypeScript errors found."
              else
                bind (showErrorMessage ("Found " +:+ string_of_nat (length tsErrors)
                                        +:+ " TypeScript errors."))
                     (λ _, console_log [LogNumber 1; LogDiagnostics tsErrors])
          end)
       (set_editors editors w)).
Proof.
  intros Heditors Hlang. unfold getTsErrors. rewrite bind_activeTextEditor, Heditors.
  by rewrite Hlang.
Qed.

(** After the bare [return;] the command handler reads [length] of
    [undefined]: the command ends with a [TypeError]. *)
Lemma getTsErrors_after_bare_return w editor editors :
  w_editors w = Some editor :: editors →
  languageId (document editor) = "typescript" →
  outcome (getTypescriptErrors (document editor) (set_editors editors w)) = Returned None →
  outcome (getTsErrors w)
  = Thrown (TypeError "Cannot read properties of undefined (reading 'length')").
Proof.
  intros Heditors Hlang Hnone.
  rewrite (getTsErrors_typescript _ _ _ Heditors Hlang). unfold bind.
  destruct (getTypescriptErrors _ _) as [t w' o]. cbn in Hnone. by subst o.
Qed.

(** C9. Each way the collection step can fail (no workspace, no
    configuration file, file not loaded) makes [getTypescriptErrors] return
    the empty list, the value it also returns for a file without
    diagnostics; the command therefore goes on to announce [No TypeScript
    errors found.] right after the failure message. *)
Theorem failed_collection_reports_no_errors w editor editors message :
  w_editors w = Some editor :: editors →
  languageId (document editor) = "typescript" →
  CollectionFailure w message →
  outcome (getTypescriptErrors (document editor) (set_editors editors w))
    = Returned (Some [])
  ∧ (∀ w0 root path sourceFile,
       Collected w0 root path sourceFile → w_diagnostics w0 = [] →
       outcome (getTypescriptErrors (document editor) w0) = Returned (Some []))
  ∧ (∃ calls, trace (getTsErrors w) =
              calls ++ [ ShowErrorMessage message;
                         ShowInformationMessage "No TypeScript errors found." ])
  ∧ outcome (getTsErrors w) = Returned tt.
Proof.
  intros Heditors Hlang Hfail.
  assert (CollectionFailure (set_editors editors w) message) as Hfail'
    by (destruct Hfail; econstructor; done).
  destruct (getTypescriptErrors_failure (document editor) _ _ Hfail') as [calls Hrun].
  split_and!.
  - by rewrite Hrun.
  - intros w0 root path sourceFile Hcollected Hzero.
    erewrite getTypescriptErrors_dismissed by (rewrite ?Hzero; by try destruct (w_pick w0)).
    cbn [outcome]. by rewrite Hzero.
  - exists (ActiveTextEditor :: calls).
    rewrite (getTsErrors_typescript _ _ _ Heditors Hlang).
    erewrite bind_returns by exact Hrun. cbn [length Nat.eqb].
    unfold showInformationMessage, ask. host_flat. by rewrite <- app_assoc.
  - rewrite (getTsErrors_typescript _ _ _ Heditors Hlang).
    erewrite bind_returns by exact Hrun. done.
Qed.

(** C3, as the code has it. For a file without diagnostics the picker is
    still opened, on an empty list, so that nothing can be selected; the
    credential is not read, no request is sent, and the command ends with
    the informational message and no error message. *)
Theorem no_diagnostics_shows_empty_picker w editor editors root path sourceFile :
  w_editors w = Some editor :: editors →
  languageId (document editor) = "typescript" →
  Collected w root path sourceFile →
  w_diagnostics w = [] →
  let doc := document editor in
  let program := {| rootNames := [fileName doc]; programOptions := options (w_parsed w) |} in
  getTsErrors w =
  MkRun [ ActiveTextEditor;
          WorkspaceFolders;
          FindConfigFile root "tsconfig.json";
          ReadConfigFile path;
          ParseJsonConfigFileContent (config (w_config w))
            {| useCaseSensitiveFileNames := true |} root
            {| noEmit := Some true; fromConfig := [] |};
          CreateProgram [fileName doc] (options (w_parsed w));
          GetSourceFile program (fileName doc);
          GetSemanticDiagnostics program sourceFile;
          ShowQuickPick [] "Select an error line to get a suggestion from OpenAI";
          ShowInformationMessage "No TypeScript errors found." ]
        (set_editors editors w) (Returned tt).
Proof.
  intros Heditors Hlang Hcollected Hzero doc program. subst doc program.
  assert (Collected (set_editors editors w) root path sourceFile) as Hcollected'
    by (destruct Hcollected; econstructor; done).
  rewrite (getTsErrors_typescript _ _ _ Heditors Hlang).
  erewrite bind_returns; cycle 1.
  { apply getTypescriptErrors_dismissed with (1 := Hcollected').
    cbn [w_diagnostics w_pick set_editors]. rewrite Hzero. by destruct (w_pick w). }
  cbn [w_diagnostics w_parsed w_config set_editors]. rewrite Hzero. done.
Qed.

(** ** The round trip through the line number *)

(** The lookup by line returns the message of the first entry on that line. *)
Lemma getErrorMessageForLine_first ln diagnostics i e :
  errorLines diagnostics !! i = Some e →
  el_line e = ln →
  ∃ j first,
    j ≤ i
    ∧ errorLines diagnostics !! j = Some first
    ∧ el_line first = ln
    ∧ (∀ k earlier, k < j → errorLines diagnostics !! k = Some earlier →
                    el_line earlier ≠ ln)
    ∧ getErrorMessageForLine ln diagnostics = Some (el_error first).
Proof.
  revert i. induction diagnostics as [|d rest IH]; intros i Hi Hln; [done|].
  cbn [getErrorMessageForLine].
  destruct (Nat.eqb_spec (line (position d)) ln) as [Hhere|Hnot].
  - exists 0, (errorLine d). split_and!; [lia | done | done | lia | done].
  - destruct i as [|i].
    + cbn in Hi. injection Hi as <-. done.
    + destruct (IH i Hi Hln) as (j & first & Hle & Hj & Hline & Hbefore & Hfound).
      exists (S j), first. split_and!; [lia | done | done | | done].
      intros [|k] earlier Hk Hearlier.
      * cbn in Hearlier. injection Hearlier as <-. done.
      * apply (Hbefore k); [lia | done].
Qed.

(** C1, as the code has it. Looking up the line of the selected entry
    returns the message of the first displayed entry on that line; this is
    the message of the selected entry when no earlier entry is on its line. *)
Theorem lookup_returns_first_on_line diagnostics i e :
  errorLines diagnostics !! i = Some e →
  (∃ j first,
     j ≤ i
     ∧ errorLines diagnostics !! j = Some first
     ∧ el_line first = el_line e
     ∧ (∀ k earlier, k < j → errorLines diagnostics !! k = Some earlier →
                     el_line earlier ≠ el_line e)
     ∧ getErrorMessageForLine (el_line e) diagnostics = Some (el_error first))
  ∧ ((∀ k earlier, k < i → errorLines diagnostics !! k = Some earlier →
                   el_line earlier ≠ el_line e) →
     getErrorMessageForLine (el_line e) diagnostics = Some (el_error e)).
Proof.
  intros Hi.
  destruct (getErrorMessageForLine_first (el_line e) diagnostics i e Hi eq_refl)
    as (j & first & Hle & Hj & Hline & Hbefore & Hfound).
  split; [by exists j, first|].
  intros Hfirst. destruct (decide (j = i)) as [->|Hne]; [congruence|].
  destruct (Hfirst j first); [lia | done | done].
Qed.

End WorkflowFacts.

(** ** The credential *)

(** C8. [Store API Key] writes the input under [apiKey] exactly when the
    input is a non-empty string, and the stored string is what a later read
    of [apiKey] yields; on empty or cancelled input it shows the failure
    message and leaves the secret storage as it was. *)
Theorem storeApiKey_stores_nonempty_input w :
  let r := storeApiKey w in
  (∀ input,
     w_input w = Some input → input ≠ "" →
     trace r = [ ShowInputBox "Enter your API Key" true;
                 SecretsStore "apiKey" input;
                 ShowInformationMessage "API Key stored successfully." ]
     ∧ w_secrets (after r) = <["apiKey" := input]> (w_secrets w)
     ∧ outcome (secrets_get "apiKey" (after r)) = Returned (Some input))
  ∧ (w_input w = None ∨ w_input w = Some "" →
     trace r = [ ShowInputBox "Enter your API Key" true;
                 ShowErrorMessage "No API Key provided." ]
     ∧ after r = w).
Proof.
  cbv zeta. unfold storeApiKey, showInputBox. rewrite bind_ask. split.
  - intros input Hinput Hne.
    assert (whenTruthy (w_input w) = Some input) as -> by by apply whenTruthy_Some.
    rewrite bind_secrets_store. unfold showInformationMessage, secrets_get. host_flat.
    split_and!; [done | done |]. by rewrite lookup_insert_eq.
  - intros Hnone. apply whenTruthy_None in Hnone as ->. done.
Qed.

(** ** The prompt *)

(** The template names the error first, then [lineSnippet], then
    [codeSnippet]. *)
Lemma prompt_order error codeSnippet lineSnippet :
  occurs_in_order [error; lineSnippet; codeSnippet] (prompt error codeSnippet lineSnippet).
Proof.
  unfold prompt. cbn [occurs_in_order].
  eexists _, _. split; [reflexivity|].
  eexists _, _. split; [reflexivity|].
  eexists _, _. split; [reflexivity|]. done.
Qed.

(** C2, at a file of four lines whose third line uses the undeclared [foo].
    The one request that is sent carries a prompt with the diagnostic
    message, then the full file text, then the text of the line: the call
    site passes the line as [codeSnippet] and the file as [lineSnippet]. The
    order message, line, file does not occur in it. *)
Theorem prompt_has_file_before_line :
  let w := project_world [cannot_find_foo] (Some 0) {[ "apiKey" := "sk-test" ]}
             (endpoint_says "Declare foo before calling it.") in
  let message := "Cannot find name 'foo'." in
  let lineText := "foo();" in
  let fileText := getText demo_document in
  lines demo_document !! 2 = Some lineText
  ∧ completionRequests (trace (getTsErrors w))
    = [completionRequest message lineText fileText]
  ∧ occurs_in_order [message; fileText; lineText]
      (prompt message lineText fileText)
  ∧ ¬ occurs_in_order [message; lineText; fileText]
      (prompt message lineText fileText).
Proof.
  cbv zeta. split_and!.
  - reflexivity.
  - vm_compute. reflexivity.
  - apply prompt_order.
  - rewrite <- occurs_in_orderb_spec. vm_compute. discriminate.
Qed.

(** ** The statements at concrete worlds *)

(** The picker's label counts lines from one. *)
Example label_of_cannot_find_foo :
  errorLines [cannot_find_foo]
  = [ {| el_label := "Line 3: Cannot find name 'foo'.";
         el_line := 2; el_character := 0;
         el_error := "Cannot find name 'foo'." |} ].
Proof. vm_compute. reflexivity. Qed.

(** With a stored key and an endpoint that is down, the command still ends
    by showing the (empty) suggestion and counting the errors. *)
Example run_with_endpoint_down :
  let r := getTsErrors (project_world [cannot_find_foo] (Some 0)
                          {[ "apiKey" := "sk-test" ]} endpoint_down) in
  drop 15 (trace r)
  = [ ConsoleLog [LogError (ServiceError "Request failed with status code 503")];
      CreateWebviewPanel "openaiSuggestion" "OpenAI Suggestion";
      SetWebviewHtml (suggestionHtml "");
      ShowErrorMessage "Found 1 TypeScript errors.";
      ConsoleLog [LogNumber 1; LogDiagnostics [cannot_find_foo]] ]
  ∧ outcome r = Returned tt.
Proof. split; vm_compute; reflexivity. Qed.

(** Two diagnostics share the first line; selecting the second entry and
    looking its line up again yields the message of the first. *)
Lemma roundtrip_fails_on_shared_line :
  same_line_diagnostics ≠ []
  ∧ ∃ e, errorLines same_line_diagnostics !! 1 = Some e
         ∧ el_label e = "Line 1: Type 'number' is not assignable to type 'string'."
         ∧ getErrorMessageForLine (el_line e) same_line_diagnostics
           = Some "Type 'string' is not assignable to type 'number'."
         ∧ getErrorMessageForLine (el_line e) same_line_diagnostics ≠ Some (el_error e).
Proof.
  split; [done|]. eexists. split; [reflexivity|]. split_and!.
  - vm_compute. reflexivity.
  - vm_compute. reflexivity.
  - vm_compute. discriminate.
Qed.

Lemma lookup_returns_first_on_line_witness :
  getErrorMessageForLine 0 same_line_diagnostics
  = Some "Type 'string' is not assignable to type 'number'.".
Proof.
  pose proof (lookup_returns_first_on_line same_line_diagnostics 0
                (errorLine wrong_number) eq_refl) as [_ Hfirst].
  apply Hfirst. intros k earlier Hk. lia.
Defined.

(** A clean file: the command opens the picker on the empty list. *)
Lemma empty_picker_is_shown :
  let w := project_world [] None ∅ endpoint_down in
  w_diagnostics w = []
  ∧ picker_shown (trace (getTsErrors w))
  ∧ ShowQuickPick [] "Select an error line to get a suggestion from OpenAI"
      ∈ trace (getTsErrors w).
Proof.
  split_and!; [reflexivity | vm_compute; reflexivity |].
  apply (list_elem_of_lookup_2 _ 8). vm_compute. reflexivity.
Qed.

Lemma no_diagnostics_shows_empty_picker_witness :
  trace (getTsErrors (project_world [] (Some 0) ∅ endpoint_down)) !! 8
  = Some (ShowQuickPick [] "Select an error line to get a suggestion from OpenAI")
  ∧ last (trace (getTsErrors (project_world [] (Some 0) ∅ endpoint_down)))
    = Some (ShowInformationMessage "No TypeScript errors found.").
Proof.
  rewrite (no_diagnostics_shows_empty_picker
             (project_world [] (Some 0) ∅ endpoint_down)
             {| document := demo_document |} [Some {| document := demo_document |}]
             "/ws" "/ws/tsconfig.json" demo_source);
    [ split; reflexivity | reflexivity | reflexivity | | reflexivity ].
  by apply (collected _ _ _ _ []).
Defined.

Lemma missing_credential_aborts_witness :
  let w := project_world [cannot_find_foo] (Some 0) ∅ endpoint_down in
  let r := getTypescriptErrors demo_document w in
  completionRequests (trace r) = []
  ∧ ∃ before,
      (trace r = before ++
         [ ShowQuickPick (errorLines (w_diagnostics w))
             "Select an error line to get a suggestion from OpenAI";
           SecretsGet "apiKey";
           ShowErrorMessage "API Key not found. Please store your API Key first." ]
       ∧ outcome r = Returned None)
      ∨ (getErrorMessageForLine (el_line (errorLine cannot_find_foo)) (w_diagnostics w)
         = Some ""
         ∧ trace r = before ++
             [ ShowQuickPick (errorLines (w_diagnostics w))
                 "Select an error line to get a suggestion from OpenAI";
               ShowErrorMessage "No error found on the selected line." ]).
Proof.
  destruct (missing_credential_aborts demo_document
              (project_world [cannot_find_foo] (Some 0) ∅ endpoint_down)
              (lookup_empty "apiKey"))
    as [Hnone Hselected].
  split; [exact Hnone|].
  refine (Hselected 0 (errorLine cannot_find_foo) _ eq_refl eq_refl).
  vm_compute. reflexivity.
Defined.

Lemma completion_failure_is_swallowed_witness :
  let w := project_world [cannot_find_foo] (Some 0) {[ "apiKey" := "sk-test" ]}
             endpoint_down in
  outcome (getOpenAISuggestion "Cannot find name 'foo'." "foo();" "sk-test"
             (getText demo_document) w) = Returned ""
  ∧ ∃ before,
      trace (getTypescriptErrors demo_document w) = before ++
        [ CreateChatCompletion {| cfg_apiKey := "sk-test" |}
            (completionRequest "Cannot find name 'foo'." "foo();" (getText demo_document));
          ConsoleLog [LogError (ServiceError "Request failed with status code 503")];
          CreateWebviewPanel "openaiSuggestion" "OpenAI Suggestion";
          SetWebviewHtml (suggestionHtml "") ]
      ∧ outcome (getTypescriptErrors demo_document w) = Returned (Some [cannot_find_foo]).
Proof.
  destruct completion_failure_is_swallowed as [Hfunction Hworkflow]. split.
  - erewrite Hfunction; reflexivity.
  - apply Hworkflow; [|reflexivity].
    apply (list_elem_of_lookup_2 _ 13). vm_compute. reflexivity.
Defined.

Lemma missing_config_aborts_witness :
  getTypescriptErrors demo_document
    (demo_world (Some ["/ws"]) None (Some demo_source) [cannot_find_foo] (Some 0) ∅
       endpoint_down)
  = MkRun [ WorkspaceFolders;
            FindConfigFile "/ws" "tsconfig.json";
            ShowErrorMessage "No tsconfig.json file found in the workspace." ]
          (demo_world (Some ["/ws"]) None (Some demo_source) [cannot_find_foo] (Some 0) ∅
             endpoint_down)
          (Returned (Some [])).
Proof. apply (missing_config_aborts _ _ "/ws" []); reflexivity. Defined.

Lemma failed_collection_reports_no_errors_witness :
  ∃ calls,
    trace (getTsErrors (demo_world (Some ["/ws"]) None (Some demo_source)
                          [cannot_find_foo] (Some 0) ∅ endpoint_down))
    = calls ++ [ ShowErrorMessage "No tsconfig.json file found in the workspace.";
                 ShowInformationMessage "No TypeScript errors found." ].
Proof.
  refine (proj1 (proj2 (proj2
    (failed_collection_reports_no_errors
       (demo_world (Some ["/ws"]) None (Some demo_source) [cannot_find_foo] (Some 0) ∅
          endpoint_down)
       {| document := demo_document |} [Some {| document := demo_document |}]
       "No tsconfig.json file found in the workspace." eq_refl eq_refl _)))).
  apply (NoConfig _ "/ws" []); reflexivity.
Defined.

Lemma storeApiKey_stores_nonempty_input_witness :
  let w := project_world [] None ∅ endpoint_down in
  outcome (secrets_get "apiKey" (after (storeApiKey (with_input (Some "sk-test") w))))
  = Returned (Some "sk-test")
  ∧ after (storeApiKey (with_input None w)) = with_input None w.
Proof.
  split.
  - destruct (storeApiKey_stores_nonempty_input
                (with_input (Some "sk-test") (project_world [] None ∅ endpoint_down)))
      as [Hstored _].
    refine (proj2 (proj2 (Hstored "sk-test" eq_refl _))). discriminate.
  - destruct (storeApiKey_stores_nonempty_input
                (with_input None (project_world [] None ∅ endpoint_down)))
      as [_ Hfailed].
    refine (proj2 (Hfailed (or_introl eq_refl))).
Defined.

(** * Further properties of the code *)

(** Two equations for one option: their contents are the same. *)
Ltac same_options :=
  repeat match goal with
         | H1 : ?x = Some ?a, H2 : ?x = Some ?b |- _ =>
             assert (a = b) by congruence; clear H2
         end;
  simplify_eq.

Section Decisions.
Context `{TypeScriptApi}.

(** The decisions of a successful collection and selection, in the form in
    which the workflow takes them. *)
Lemma collected_config w root path sourceFile :
  Collected w root path sourceFile → whenTruthy (w_configFile w) = Some path.
Proof. intros [others _ Hpath Hne _]. by apply whenTruthy_Some. Qed.

Lemma chosen_pick w e message :
  Chosen w e message →
  w_pick w ≫= (λ i, errorLines (w_diagnostics w) !! i) = Some e.
Proof. intros [i Hi He _ _]. by rewrite Hi. Qed.

Lemma chosen_message w e message :
  Chosen w e message →
  whenTruthy (getErrorMessageForLine (el_line e) (w_diagnostics w)) = Some message.
Proof. intros [i _ _ Hm Hne]. by apply whenTruthy_Some. Qed.

Lemma keyStored_truthy w key :
  KeyStored w key → whenTruthy (w_secrets w !! "apiKey") = Some key.
Proof. intros [Hkey Hne]. by apply whenTruthy_Some. Qed.

End Decisions.

Ltac use_decisions :=
  repeat match goal with
         | Hc : Collected _ _ _ _ |- _ =>
             pose proof (collected_config _ _ _ _ Hc); destruct Hc as [? ? _ _ ?]
         | Hc : Chosen _ _ _ |- _ =>
             pose proof (chosen_pick _ _ _ Hc); pose proof (chosen_message _ _ _ Hc);
             clear Hc
         | Hk : KeyStored _ _ |- _ => apply keyStored_truthy in Hk
         end.

(** The one path on which the hypotheses hold: the others are ruled out. *)
Ltac workflow_path w :=
  workflow_cases w; intros; use_decisions; try congruence; same_options.

(** ** The secret storage *)

(** X9. [Store API Key] changes nothing but the entry [apiKey]: every other
    secret keeps its value, whatever the input; and a second non-empty input
    replaces the first. *)
Theorem storeApiKey_touches_only_apiKey w :
  (∀ key, key ≠ "apiKey" →
          w_secrets (after (storeApiKey w)) !! key = w_secrets w !! key)
  ∧ (∀ first second,
       w_input w = Some first → first ≠ "" → second ≠ "" →
       w_secrets (after (storeApiKey (with_input (Some second) (after (storeApiKey w)))))
       = <["apiKey" := second]> (w_secrets w)).
Proof.
  split.
  - intros key Hkey. unfold storeApiKey, showInputBox. rewrite bind_ask.
    destruct (whenTruthy (w_input w)) as [input|].
    + rewrite bind_secrets_store. unfold showInformationMessage. host_flat.
      by rewrite lookup_insert_ne.
    + done.
  - intros first second Hfirst Hne1 Hne2.
    assert (∀ w0 input, w_input w0 = Some input → input ≠ "" →
                        w_secrets (after (storeApiKey w0))
                        = <["apiKey" := input]> (w_secrets w0)) as Hstore.
    { intros w0 input Hin Hne. unfold storeApiKey, showInputBox. rewrite bind_ask.
      assert (whenTruthy (w_input w0) = Some input) as -> by by apply whenTruthy_Some.
      rewrite bind_secrets_store. unfold showInformationMessage. by host_flat. }
    rewrite (Hstore (with_input (Some second) _) second eq_refl Hne2).
    cbn [with_input w_secrets].
    rewrite (Hstore _ first Hfirst Hne1). apply insert_insert_eq.
Qed.

(** ** getOpenAISuggestion and displaySuggestion *)

(** X13. [getOpenAISuggestion] never throws, and it leaves the world as it
    is. A response without [choices] makes [choices[0]] throw a
    [TypeError], which is caught and logged like a failure of the call and
    yields the empty string; an empty [choices] array yields the empty
    string without any error being logged. *)
Theorem getOpenAISuggestion_never_throws error codeSnippet apiKey lineSnippet w :
  let configuration := {| cfg_apiKey := apiKey |} in
  let request := completionRequest error codeSnippet lineSnippet in
  let r := getOpenAISuggestion error codeSnippet apiKey lineSnippet w in
  (∀ err, outcome r ≠ Thrown err)
  ∧ after r = w
  ∧ (w_completion w configuration request
       = inr (Some {| data := Some {| choices := None |} |}) →
     outcome r = Returned ""
     ∧ last (trace r)
       = Some (ConsoleLog
                 [LogError (TypeError "Cannot read properties of undefined (reading '0')")]))
  ∧ (w_completion w configuration request
       = inr (Some {| data := Some {| choices := Some [] |} |}) →
     outcome r = Returned ""
     ∧ last (trace r) = Some (CreateChatCompletion configuration request)).
Proof.
  cbv zeta. rewrite getOpenAISuggestion_run. cbn [outcome after trace].
  split_and!; [done | done | |]; by intros ->.
Qed.

(** Joining two lists of lines joins their texts. *)
Lemma concat_app_cons sep xs y ys :
  String.concat sep (xs ++ y :: ys)
  = match xs with
    | [] => String.concat sep (y :: ys)
    | _ => String.concat sep xs +:+ sep +:+ String.concat sep (y :: ys)
    end.
Proof.
  induction xs as [|x [|x' xs] IH]; [done | done |].
  change ((x :: x' :: xs) ++ y :: ys) with (x :: (x' :: xs) ++ y :: ys).
  cbn [String.concat app] in *. rewrite IH. by rewrite !append_assoc.
Qed.

(** A line with an indented, tagged text, regrouped around the text. *)
Lemma regroup_line (head sep indent opening text closing rest : string) :
  head +:+ sep +:+ ((indent +:+ opening) +:+ text +:+ closing) +:+ rest
  = (head +:+ sep +:+ indent) +:+ opening +:+ text +:+ closing +:+ rest.
Proof. by rewrite !append_assoc. Qed.

(** X14. The suggestion is put into the page as it is, between the tags of
    the second heading: the text before it and the text after it do not
    depend on the suggestion, and nothing in the suggestion is escaped. *)
Theorem suggestion_is_inserted_verbatim :
  ∃ before after,
    ∀ suggestion w,
      displaySuggestion suggestion w
      = MkRun [ CreateWebviewPanel "openaiSuggestion" "OpenAI Suggestion";
                SetWebviewHtml (before +:+ "<h1>" +:+ suggestion +:+ "</h1>" +:+ after) ]
              w (Returned tt).
Proof.
  eexists _, _. intros suggestion w. rewrite displaySuggestion_run.
  f_equal. f_equal. f_equal. f_equal.
  unfold suggestionHtml.
  lazymatch goal with
  | |- String.concat newline ?l = _ =>
      let before := eval cbn in (take 19 l) in
      let after := eval cbn in (drop 20 l) in
      change l with (before ++ ("      <h1>" +:+ suggestion +:+ "</h1>") :: after)
  end.
  rewrite concat_app_cons. cbn [String.concat].
  lazymatch goal with
  | |- ?head +:+ newline +:+ _ +:+ ?rest = _ =>
      exact (regroup_line head newline "      " "<h1>" suggestion "</h1>" rest)
  end.
Qed.

Section FurtherFacts.
Context `{TypeScriptApi}.

(** The run that reaches the completion service. *)
(** The run that reaches the completion service. *)
Lemma getTypescriptErrors_request doc w root path sourceFile e message key editor editors
    lineText :
  Collected w root path sourceFile →
  Chosen w e message →
  KeyStored w key →
  w_editors w = Some editor :: editors →
  lines (document editor) !! el_line e = Some lineText →
  getTypescriptErrors doc w =
  MkRun (collectionCalls doc w root path sourceFile ++
         [ SecretsGet "apiKey";
           ActiveTextEditor;
           ConsoleLog [LogString ("Error message for line "
                                  +:+ string_of_nat (el_line e + 1) +:+ ": " +:+ message)];
           ConsoleLog [LogString "calling"];
           ConsoleLog [LogString message; LogString lineText;
                       LogString (getText (document editor))];
           CreateChatCompletion {| cfg_apiKey := key |}
             (completionRequest message lineText (getText (document editor))) ] ++
         match caught (w_completion w {| cfg_apiKey := key |}
                         (completionRequest message lineText (getText (document editor)))) with
         | Some err => [ConsoleLog [LogError err]]
         | None => []
         end ++
         [ CreateWebviewPanel "openaiSuggestion" "OpenAI Suggestion";
           SetWebviewHtml
             (suggestionHtml
                (suggestionFor
                   (w_completion w {| cfg_apiKey := key |}
                      (completionRequest message lineText (getText (document editor)))))) ])
        (set_editors editors w)
        (Returned (Some (w_diagnostics w))).
Proof.
  intros Hcollected Hchosen Hkeystored. workflow_path w.
  unfold prepend, ret. cbn [trace after outcome app]. by rewrite app_nil_r.
Qed.

(** The run that stops at an unusable credential. *)
Lemma getTypescriptErrors_unusable_key doc w root path sourceFile e message :
  Collected w root path sourceFile →
  Chosen w e message →
  whenTruthy (w_secrets w !! "apiKey") = None →
  getTypescriptErrors doc w =
  MkRun (collectionCalls doc w root path sourceFile ++
         [ SecretsGet "apiKey";
           ShowErrorMessage "API Key not found. Please store your API Key first." ])
        w (Returned None).
Proof. intros Hcollected Hchosen. by workflow_path w. Qed.

(** The command around [getTypescriptErrors]. *)
Lemma getTsErrors_run w editor editors :
  w_editors w = Some editor :: editors →
  languageId (document editor) = "typescript" →
  getTsErrors w =
  MkRun (ActiveTextEditor
         :: trace (getTypescriptErrors (document editor) (set_editors editors w))
         ++ report (outcome (getTypescriptErrors (document editor) (set_editors editors w))))
        (after (getTypescriptErrors (document editor) (set_editors editors w)))
        (commandOutcome
           (outcome (getTypescriptErrors (document editor) (set_editors editors w)))).
Proof.
  intros Heditors Hlang. rewrite (getTsErrors_typescript _ _ _ Heditors Hlang).
  unfold bind, prepend.
  destruct (getTypescriptErrors _ _) as [t w' [[tsErrors|]|err]];
    cbn [trace after outcome report commandOutcome throw]; rewrite ?app_nil_r; try done.
  destruct (Nat.eqb (length tsErrors) 0); done.
Qed.

Lemma getTsErrors_no_editor w :
  currentEditor w = None →
  trace (getTsErrors w) = [ActiveTextEditor; ShowErrorMessage "No active editor found."]
  ∧ outcome (getTsErrors w) = Returned tt
  ∧ w_secrets (after (getTsErrors w)) = w_secrets w.
Proof.
  unfold currentEditor, getTsErrors. rewrite bind_activeTextEditor.
  by destruct (w_editors w) as [|[editor|] editors].
Qed.

Lemma getTsErrors_other_language w editor :
  currentEditor w = Some editor →
  languageId (document editor) ≠ "typescript" →
  trace (getTsErrors w)
  = [ActiveTextEditor; ShowErrorMessage "This command only works with TypeScript files."]
  ∧ outcome (getTsErrors w) = Returned tt
  ∧ w_secrets (after (getTsErrors w)) = w_secrets w.
Proof.
  unfold currentEditor, getTsErrors. rewrite bind_activeTextEditor.
  destruct (w_editors w) as [|[editor'|] editors]; [done | | done].
  intros [= ->] Hother. by destruct (String.eqb_spec (languageId (document editor)) "typescript").
Qed.

(** The three ways the command can start. *)
Lemma getTsErrors_start w :
  currentEditor w = None
  ∨ (∃ editor, currentEditor w = Some editor ∧ languageId (document editor) ≠ "typescript")
  ∨ (∃ editor editors, w_editors w = Some editor :: editors
                       ∧ languageId (document editor) = "typescript").
Proof.
  unfold currentEditor. destruct (w_editors w) as [|[editor|] editors]; [by left | | by left].
  destruct (decide (languageId (document editor) = "typescript")); [|by eauto].
  right. right. by eauto.
Qed.

(** ** The command's guards *)

(** X2. Unless the active editor holds a TypeScript document, the command
    shows one error message and does nothing else: no workspace is read, no
    program is built, no picker opens. A document of another language,
    [typescriptreact] included, is refused. *)
Theorem command_requires_typescript_editor w :
  (currentEditor w = None →
   trace (getTsErrors w) = [ActiveTextEditor; ShowErrorMessage "No active editor found."]
   ∧ outcome (getTsErrors w) = Returned tt)
  ∧ (∀ editor,
       currentEditor w = Some editor →
       languageId (document editor) ≠ "typescript" →
       trace (getTsErrors w)
       = [ ActiveTextEditor;
           ShowErrorMessage "This command only works with TypeScript files." ]
       ∧ outcome (getTsErrors w) = Returned tt).
Proof.
  split.
  - intros Hnone. by destruct (getTsErrors_no_editor w Hnone) as (? & ? & _).
  - intros editor Hsome Hother.
    by destruct (getTsErrors_other_language w editor Hsome Hother) as (? & ? & _).
Qed.

(** ** What a run never does *)

(** [getTypescriptErrors]: at most one request, a panel for each request,
    and no write to the secret storage. *)
Lemma getTypescriptErrors_discipline doc w :
  length (completionRequests (trace (getTypescriptErrors doc w))) ≤ 1
  ∧ panelsOpened (trace (getTypescriptErrors doc w))
    = length (completionRequests (trace (getTypescriptErrors doc w)))
  ∧ existsb isSecretsStore (trace (getTypescriptErrors doc w)) = false
  ∧ w_secrets (after (getTypescriptErrors doc w)) = w_secrets w.
Proof.
  workflow_cases w; try (cbn; split_and!; (done || lia)).
  destruct (caught _); cbn; split_and!; (done || lia).
Qed.

Lemma report_is_quiet result :
  completionRequests (report result) = []
  ∧ panelsOpened (report result) = 0
  ∧ existsb isSecretsStore (report result) = false.
Proof.
  destruct result as [[tsErrors|]|err]; cbn [report]; [|done..].
  by destruct (Nat.eqb (length tsErrors) 0).
Qed.

Lemma completionRequests_app t u :
  completionRequests (t ++ u) = completionRequests t ++ completionRequests u.
Proof. apply omap_app. Qed.

Lemma panelsOpened_app t u : panelsOpened (t ++ u) = panelsOpened t + panelsOpened u.
Proof. unfold panelsOpened. by rewrite List.filter_app, length_app. Qed.

(** The same at every point of a run of [getTypescriptErrors]. *)
Lemma getTypescriptErrors_prefixes doc w k :
  length (completionRequests (take k (trace (getTypescriptErrors doc w)))) ≤ 1
  ∧ panelsOpened (take k (trace (getTypescriptErrors doc w)))
    ≤ length (completionRequests (take k (trace (getTypescriptErrors doc w)))).
Proof.
  revert k. workflow_cases w; try destruct (caught _); intros k;
    do 20 (destruct k as [|k]; [cbn; lia|]); cbn; lia.
Qed.

Lemma report_prefix_is_quiet result k :
  completionRequests (take k (report result)) = []
  ∧ panelsOpened (take k (report result)) = 0.
Proof.
  destruct result as [[tsErrors|]|err]; cbn [report]; [|by destruct k..].
  destruct (Nat.eqb (length tsErrors) 0); by do 3 (destruct k as [|k]; [done|]).
Qed.

(** X3. At every point of a run of the command, that is, for every prefix
    of its trace, at most one request has been sent to the completion
    service, and no more webview panels have been opened than requests have
    been sent: a panel is opened only after a request, and never twice. *)
Theorem at_most_one_request_per_command w k :
  length (completionRequests (take k (trace (getTsErrors w)))) ≤ 1
  ∧ panelsOpened (take k (trace (getTsErrors w)))
    ≤ length (completionRequests (take k (trace (getTsErrors w)))).
Proof.
  destruct (getTsErrors_start w) as [Hnone|[(editor & Hsome & Hother)|(editor & editors & Hed & Hts)]].
  - destruct (getTsErrors_no_editor w Hnone) as (-> & _).
    do 3 (destruct k as [|k]; [cbn; lia|]). cbn. lia.
  - destruct (getTsErrors_other_language w editor Hsome Hother) as (-> & _).
    do 3 (destruct k as [|k]; [cbn; lia|]). cbn. lia.
  - rewrite (getTsErrors_run w editor editors Hed Hts). cbn [trace].
    destruct k as [|k]; [cbn; lia|]. cbn [take]. rewrite take_app.
    destruct (getTypescriptErrors_prefixes (document editor) (set_editors editors w) k)
      as (Hle & Hpanels).
    destruct (report_prefix_is_quiet
                (outcome (getTypescriptErrors (document editor) (set_editors editors w)))
                (k - length (trace (getTypescriptErrors (document editor)
                                      (set_editors editors w)))))
      as (Hrequests & Hquiet).
    rewrite !(completionRequests_app [ActiveTextEditor] (_ ++ _) : completionRequests (_ :: _) = _),
      !(panelsOpened_app [ActiveTextEditor] (_ ++ _) : panelsOpened (_ :: _) = _).
    rewrite !completionRequests_app, !panelsOpened_app, !length_app, Hrequests, Hquiet.
    revert Hle Hpanels. generalize (take k (trace (getTypescriptErrors (document editor)
                                                      (set_editors editors w)))).
    intros t Hle Hpanels. cbn. lia.
Qed.

(** X8. The command never writes to the secret storage: it makes no
    [store] call, and the storage after the run is the storage before it. *)
Theorem getTsErrors_leaves_secrets_alone w :
  existsb isSecretsStore (trace (getTsErrors w)) = false
  ∧ w_secrets (after (getTsErrors w)) = w_secrets w.
Proof.
  destruct (getTsErrors_start w) as [Hnone|[(editor & Hsome & Hother)|(editor & editors & Hed & Hts)]].
  - by destruct (getTsErrors_no_editor w Hnone) as (-> & _ & ->).
  - by destruct (getTsErrors_other_language w editor Hsome Hother) as (-> & _ & ->).
  - rewrite (getTsErrors_run w editor editors Hed Hts). cbn [trace after].
    destruct (getTypescriptErrors_discipline (document editor) (set_editors editors w))
      as (_ & _ & Hstore & Hsecrets).
    destruct (report_is_quiet
                (outcome (getTypescriptErrors (document editor) (set_editors editors w))))
      as (_ & _ & Hquiet).
    split; [|done]. cbn [existsb isSecretsStore orb].
    by rewrite existsb_app, Hstore, Hquiet.
Qed.

(** ** Where a request comes from *)

Lemma request_origin doc w configuration request :
  CreateChatCompletion configuration request ∈ trace (getTypescriptErrors doc w) →
  ∃ e message key editor editors lineText,
    Chosen w e message
    ∧ KeyStored w key
    ∧ w_editors w = Some editor :: editors
    ∧ lines (document editor) !! el_line e = Some lineText
    ∧ configuration = {| cfg_apiKey := key |}
    ∧ request = completionRequest message lineText (getText (document editor)).
Proof.
  workflow_cases w; intros Hin; in_trace Hin.
  - injection Hin as -> ->.
    apply whenTruthy_Some in Hmessage as [Hmessage Hne].
    apply whenTruthy_Some in Hkey as [Hkey Hkne].
    destruct (w_pick w) as [i|] eqn:Hi; [|done]. cbn [mbind option_bind] in Hpick.
    exists selected, errorMessage, apiKey, activeEditor, laterEditors, codeSnippet.
    split_and!; [by apply (chosen _ _ _ i) | done..].
  - destruct (caught _); in_trace Hin.
Qed.

Lemma request_in_command w configuration request :
  CreateChatCompletion configuration request ∈ trace (getTsErrors w) →
  ∃ analysed editors,
    w_editors w = Some analysed :: editors
    ∧ languageId (document analysed) = "typescript"
    ∧ CreateChatCompletion configuration request
        ∈ trace (getTypescriptErrors (document analysed) (set_editors editors w)).
Proof.
  destruct (getTsErrors_start w) as [Hnone|[(editor & Hsome & Hother)|(editor & editors & Hed & Hts)]].
  - destruct (getTsErrors_no_editor w Hnone) as (-> & _). intros Hin. in_trace Hin.
  - destruct (getTsErrors_other_language w editor Hsome Hother) as (-> & _).
    intros Hin. in_trace Hin.
  - rewrite (getTsErrors_run w editor editors Hed Hts). cbn [trace]. intros Hin.
    exists editor, editors. split_and!; [done..|].
    apply elem_of_cons in Hin as [Hin|Hin]; [done|].
    apply elem_of_app in Hin as [Hin|Hin]; [done|].
    destruct (outcome _) as [[tsErrors|]|err]; cbn [report] in Hin; in_trace Hin.
    destruct (Nat.eqb _ _); in_trace Hin.
Qed.

(** X4. Whenever the command sends a request, the request is built from:
    the message that the lookup by line returns for the selected entry, the
    text of that line in the editor that is active after the picker and the
    credential lookup, the full text of that same editor, and the stored
    key. The editor whose document was analysed is the one read first; the
    texts come from the one read second. *)
Theorem request_is_built_from_lookup_and_live_editor w configuration request :
  CreateChatCompletion configuration request ∈ trace (getTsErrors w) →
  ∃ analysed editor later e message key lineText,
    w_editors w = Some analysed :: Some editor :: later
    ∧ languageId (document analysed) = "typescript"
    ∧ Chosen w e message
    ∧ KeyStored w key
    ∧ lines (document editor) !! el_line e = Some lineText
    ∧ configuration = {| cfg_apiKey := key |}
    ∧ request = completionRequest message lineText (getText (document editor)).
Proof.
  intros (analysed & editors & Hed & Hts & Hin)%request_in_command.
  apply request_origin in Hin
    as (e & message & key & editor & later & lineText & Hch & Hkey & Heds & Hln & -> & ->).
  cbn [w_editors set_editors] in Heds. subst editors.
  exists analysed, editor, later, e, message, key, lineText.
  split_and!; [done | done | | done..].
  destruct Hch as [i Hi He Hm Hne]. by apply (chosen _ _ _ i).
Qed.

Lemma storeApiKey_after w key :
  w_input w = Some key → key ≠ "" →
  after (storeApiKey w) = set_secrets (<["apiKey" := key]> (w_secrets w)) w.
Proof.
  intros Hin Hne. unfold storeApiKey, showInputBox. rewrite bind_ask.
  assert (whenTruthy (w_input w) = Some key) as -> by by apply whenTruthy_Some.
  rewrite bind_secrets_store. unfold showInformationMessage. by host_flat.
Qed.

(** X10. After [Store API Key] has stored the input [key], every request
    that the error command sends authenticates with exactly [key]. *)
Theorem stored_key_is_the_key_sent w key configuration request :
  w_input w = Some key →
  key ≠ "" →
  CreateChatCompletion configuration request ∈ trace (getTsErrors (after (storeApiKey w))) →
  configuration = {| cfg_apiKey := key |}.
Proof.
  intros Hinput Hne (analysed & editors & _ & _ & Hin)%request_in_command.
  apply request_origin in Hin as (_ & _ & key' & _ & _ & _ & _ & [Hkey _] & _ & _ & -> & _).
  rewrite (storeApiKey_after w key Hinput Hne) in Hkey.
  cbn [w_secrets set_editors set_secrets] in Hkey. rewrite lookup_insert_eq in Hkey.
  congruence.
Qed.

(** ** After the selection *)

(** X5. The line number comes from the file that the compiler read; the
    text comes from the editor's buffer. When the buffer has no such line,
    [lineAt] throws: [getTypescriptErrors] ends with that error after the
    credential lookup and the first log entry, and sends no request. *)
Theorem stale_line_throws doc w root path sourceFile e message key editor editors :
  Collected w root path sourceFile →
  Chosen w e message →
  KeyStored w key →
  w_editors w = Some editor :: editors →
  length (lines (document editor)) ≤ el_line e →
  getTypescriptErrors doc w =
  MkRun (collectionCalls doc w root path sourceFile ++
         [ SecretsGet "apiKey";
           ActiveTextEditor;
           ConsoleLog [LogString ("Error message for line "
                                  +:+ string_of_nat (el_line e + 1) +:+ ": " +:+ message)] ])
        (set_editors editors w)
        (Thrown (IllegalArgument "Illegal value for `line`")).
Proof.
  intros Hcollected Hchosen Hkeystored. workflow_path w.
  - match goal with Hl : _ !! _ = Some _ |- _ => apply lookup_lt_Some in Hl end. lia.
  - done.
Qed.

(** X7. When no editor is active any more after the picker and the
    credential lookup, the function shows [No active editor found.] and
    returns [undefined]; no request is sent. *)
Theorem editor_closed_before_request doc w root path sourceFile e message key :
  Collected w root path sourceFile →
  Chosen w e message →
  KeyStored w key →
  currentEditor w = None →
  trace (getTypescriptErrors doc w)
  = collectionCalls doc w root path sourceFile ++
    [ SecretsGet "apiKey"; ActiveTextEditor; ShowErrorMessage "No active editor found." ]
  ∧ outcome (getTypescriptErrors doc w) = Returned None.
Proof.
  intros Hcollected Hchosen Hkeystored. unfold currentEditor.
  by workflow_path w.
Qed.

(** X6. With a selection made and no usable key (none stored, or the empty
    string), the command shows the message about the key and then fails:
    [getTypescriptErrors] has returned [undefined], and reading its [length]
    throws a [TypeError] out of the command handler. *)
Theorem unusable_key_ends_command_with_type_error
    w editor editors root path sourceFile e message :
  w_editors w = Some editor :: editors →
  languageId (document editor) = "typescript" →
  Collected w root path sourceFile →
  Chosen w e message →
  w_secrets w !! "apiKey" = None ∨ w_secrets w !! "apiKey" = Some "" →
  trace (getTsErrors w)
  = ActiveTextEditor
    :: collectionCalls (document editor) w root path sourceFile ++
       [ SecretsGet "apiKey";
         ShowErrorMessage "API Key not found. Please store your API Key first." ]
  ∧ outcome (getTsErrors w)
    = Thrown (TypeError "Cannot read properties of undefined (reading 'length')").
Proof.
  intros Hed Hts Hcollected Hchosen Hkey%whenTruthy_None.
  rewrite (getTsErrors_run w editor editors Hed Hts).
  rewrite (getTypescriptErrors_unusable_key (document editor) (set_editors editors w)
             root path sourceFile e message).
  - cbn [trace outcome report commandOutcome]. by rewrite app_nil_r.
  - destruct Hcollected as [others ? ? ? ?]. by apply (collected _ _ _ _ others).
  - destruct Hchosen as [i ? ? ? ?]. by apply (chosen _ _ _ i).
  - done.
Qed.

(** X11. When the user dismisses the picker of a file with diagnostics, no
    credential is read and no request is sent; the command reports the
    number of diagnostics with [showErrorMessage] and logs them. *)
Theorem dismissed_picker_reports_count w editor editors root path sourceFile :
  w_editors w = Some editor :: editors →
  languageId (document editor) = "typescript" →
  Collected w root path sourceFile →
  w_diagnostics w ≠ [] →
  w_pick w = None →
  getTsErrors w =
  MkRun (ActiveTextEditor
         :: collectionCalls (document editor) w root path sourceFile ++
            [ ShowErrorMessage ("Found " +:+ string_of_nat (length (w_diagnostics w))
                                +:+ " TypeScript errors.");
              ConsoleLog [LogNumber 1; LogDiagnostics (w_diagnostics w)] ])
        (set_editors editors w) (Returned tt).
Proof.
  intros Hed Hts Hcollected Hsome Hnone.
  rewrite (getTsErrors_run w editor editors Hed Hts).
  rewrite (getTypescriptErrors_dismissed (document editor) (set_editors editors w)
             root path sourceFile).
  - assert (Nat.eqb (length (w_diagnostics w)) 0 = false) as Hlen
      by by destruct (w_diagnostics w).
    cbn [trace outcome after report commandOutcome w_diagnostics set_editors].
    by rewrite Hlen.
  - destruct Hcollected as [others ? ? ? ?]. by apply (collected _ _ _ _ others).
  - cbn [w_pick set_editors]. by rewrite Hnone.
Qed.

Lemma regroup_tail {A} (a : A) xs ys zs u1 u2 vs :
  a :: (xs ++ ys ++ zs ++ [u1; u2]) ++ vs = (a :: xs ++ ys ++ zs) ++ u1 :: u2 :: vs.
Proof. cbn. by rewrite <- !app_assoc. Qed.

(** X12. With a selection, a key and a live editor that has the line, the
    command sends exactly one request; when the endpoint answers, the page
    that is shown carries the content of the first candidate (the empty
    string when it is absent), and the command ends by reporting the number
    of diagnostics. *)
Theorem suggestion_is_shown_then_count_reported
    w analysed editor later root path sourceFile e message key lineText response :
  w_editors w = Some analysed :: Some editor :: later →
  languageId (document analysed) = "typescript" →
  Collected w root path sourceFile →
  Chosen w e message →
  KeyStored w key →
  lines (document editor) !! el_line e = Some lineText →
  w_completion w {| cfg_apiKey := key |}
    (completionRequest message lineText (getText (document editor))) = inr response →
  completionRequests (trace (getTsErrors w))
  = [completionRequest message lineText (getText (document editor))]
  ∧ (∃ before,
       trace (getTsErrors w) = before ++
         [ CreateWebviewPanel "openaiSuggestion" "OpenAI Suggestion";
           SetWebviewHtml (suggestionHtml (default "" (firstCandidateContent response)));
           ShowErrorMessage ("Found " +:+ string_of_nat (length (w_diagnostics w))
                             +:+ " TypeScript errors.");
           ConsoleLog [LogNumber 1; LogDiagnostics (w_diagnostics w)] ])
  ∧ outcome (getTsErrors w) = Returned tt.
Proof.
  intros Hed Hts Hcollected Hchosen Hkey Hln Hanswer.
  rewrite (getTsErrors_run w analysed _ Hed Hts).
  rewrite (getTypescriptErrors_request (document analysed) (set_editors (Some editor :: later) w)
             root path sourceFile e message key editor later lineText).
  - cbn [trace outcome after commandOutcome w_diagnostics w_completion set_editors].
    rewrite Hanswer. cbn [suggestionFor].
    assert (report (Returned (Some (w_diagnostics w)))
            = [ ShowErrorMessage ("Found " +:+ string_of_nat (length (w_diagnostics w))
                                  +:+ " TypeScript errors.");
                ConsoleLog [LogNumber 1; LogDiagnostics (w_diagnostics w)] ]) as ->.
    { destruct Hchosen as [i _ He _ _]. unfold errorLines in He.
      destruct (w_diagnostics w); [done | done]. }
    split_and!; [| |done].
    + unfold collectionCalls. by destruct (caught _).
    + eexists. apply regroup_tail.
  - destruct Hcollected as [others ? ? ? ?]. by apply (collected _ _ _ _ others).
  - destruct Hchosen as [i ? ? ? ?]. by apply (chosen _ _ _ i).
  - done.
  - done.
  - done.
Qed.

(** ** What the compiler service is asked *)

(** X15. In every run the configuration file is searched from the first
    workspace folder only, under the name [tsconfig.json]; the program is
    created for exactly one root file, the document's, with the options
    parsed from the configuration; and diagnostics are requested only for
    the source file that was loaded. *)
Theorem analysis_is_scoped_to_the_document doc w :
  (∀ searchPath configName,
     FindConfigFile searchPath configName ∈ trace (getTypescriptErrors doc w) →
     configName = "tsconfig.json"
     ∧ ∃ others, w_workspaceFolders w = Some (searchPath :: others))
  ∧ (∀ names opts,
       CreateProgram names opts ∈ trace (getTypescriptErrors doc w) →
       names = [fileName doc] ∧ opts = options (w_parsed w))
  ∧ (∀ program sourceFile,
       GetSemanticDiagnostics program sourceFile ∈ trace (getTypescriptErrors doc w) →
       rootNames program = [fileName doc] ∧ w_sourceFile w = Some sourceFile).
Proof.
  split_and!.
  - intros searchPath configName.
    workflow_cases w; intros Hin; in_trace Hin;
      try (injection Hin as -> ->; by eauto).
    destruct (caught _); in_trace Hin.
  - intros names opts.
    workflow_cases w; intros Hin; in_trace Hin;
      try (by injection Hin as -> ->).
    destruct (caught _); in_trace Hin.
  - intros program sourceFile.
    workflow_cases w; intros Hin; in_trace Hin;
      try (by injection Hin as -> ->).
    destruct (caught _); in_trace Hin.
Qed.

(** ** The lookup by line *)

(** X1. [getErrorMessageForLine] returns [undefined] exactly when no
    diagnostic is on the line; otherwise it returns the flattened message of
    the first diagnostic, in the order of the list, that is on the line. *)
Theorem getErrorMessageForLine_first_match ln diagnostics :
  (getErrorMessageForLine ln diagnostics = None
   ↔ ∀ d, d ∈ diagnostics → line (position d) ≠ ln)
  ∧ (∀ found,
       getErrorMessageForLine ln diagnostics = Some found →
       ∃ i d,
         diagnostics !! i = Some d
         ∧ line (position d) = ln
         ∧ flattened d = found
         ∧ ∀ j earlier, j < i → diagnostics !! j = Some earlier →
                        line (position earlier) ≠ ln).
Proof.
  induction diagnostics as [|d rest [IHnone IHsome]]; cbn [getErrorMessageForLine].
  - split; [|done]. split; [|done]. intros _ d Hd. by apply elem_of_nil in Hd.
  - destruct (Nat.eqb_spec (line (position d)) ln) as [Hhere|Hnot]; split.
    + split; [done|]. intros Hall. destruct (Hall d); [apply list_elem_of_here | done].
    + intros found [= <-]. exists 0, d. split_and!; [done..|]. intros j earlier Hj. lia.
    + rewrite IHnone. split.
      * intros Hall d' [->|Hd']%elem_of_cons; [done | by apply Hall].
      * intros Hall d' Hd'. apply Hall. by apply list_elem_of_further.
    + intros found (i & d' & Hi & Hline & Hflat & Hbefore)%IHsome.
      exists (S i), d'. split_and!; [done..|].
      intros [|j] earlier Hj Hearlier.
      * cbn in Hearlier. by injection Hearlier as <-.
      * apply (Hbefore j); [lia | done].
Qed.

(** X16. The secret storage is read only under the key [apiKey], and only
    after the user has selected an entry whose line has a non-empty message:
    a run that fails earlier, or whose picker is dismissed, never touches
    the credential. *)
Theorem credential_is_read_only_after_selection doc w key :
  SecretsGet key ∈ trace (getTypescriptErrors doc w) →
  key = "apiKey" ∧ ∃ e message, Chosen w e message.
Proof.
  workflow_cases w; intros Hin; in_trace Hin.
  all: try (destruct (caught _); in_trace Hin).
  all: injection Hin as ->; split; [done|].
  all: apply whenTruthy_Some in Hmessage as [Hmessage Hne].
  all: destruct (w_pick w) as [i|] eqn:Hi; [|done]; cbn [mbind option_bind] in Hpick.
  all: exists selected, errorMessage; by apply (chosen _ _ _ i).
Qed.

(** X17. Apart from the entry that prints a caught error, what a run writes
    to the console does not depend on the stored key: two runs that differ
    only in the (non-empty) key under [apiKey] log the same entries of the
    extension's own, whatever the endpoint answers to either. *)
Theorem own_log_entries_do_not_depend_on_key doc w key key' :
  key ≠ "" →
  key' ≠ "" →
  ownLogEntries (trace (getTypescriptErrors doc
                          (set_secrets (<["apiKey" := key]> (w_secrets w)) w)))
  = ownLogEntries (trace (getTypescriptErrors doc
                            (set_secrets (<["apiKey" := key']> (w_secrets w)) w))).
Proof.
  intros Hne Hne'.
  assert (∀ k, k ≠ "" →
               whenTruthy (w_secrets (set_secrets (<["apiKey" := k]> (w_secrets w)) w)
                             !! "apiKey") = Some k) as Hk.
  { intros k Hk. apply whenTruthy_Some. cbn. by rewrite lookup_insert_eq. }
  pose proof (Hk key Hne) as Hk1. pose proof (Hk key' Hne') as Hk2. clear Hk.
  remember (set_secrets (<["apiKey" := key]> (w_secrets w)) w) as w1 eqn:E1.
  remember (set_secrets (<["apiKey" := key']> (w_secrets w)) w) as w2 eqn:E2.
  assert (w_workspaceFolders w2 = w_workspaceFolders w1) as F1 by by subst.
  assert (w_configFile w2 = w_configFile w1) as F2 by by subst.
  assert (w_sourceFile w2 = w_sourceFile w1) as F3 by by subst.
  assert (w_pick w2 = w_pick w1) as F4 by by subst.
  assert (w_diagnostics w2 = w_diagnostics w1) as F5 by by subst.
  assert (w_editors w2 = w_editors w1) as F6 by by subst.
  assert (w_config w2 = w_config w1) as F7 by by subst.
  assert (w_parsed w2 = w_parsed w1) as F8 by by subst.
  clear E1 E2.
  unfold getTypescriptErrors at 2. unfold_calls. host_step. rewrite F1.
  workflow_cases w1.
  all: rewrite ?F2, ?Hconfig; repeat host_step; rewrite ?F3, ?Hsource; repeat host_step;
    rewrite ?F4, ?F5, ?Hpick, ?Hmessage; repeat host_step; rewrite ?Hk2; repeat host_step;
    rewrite ?F6; repeat host_step; unfold lineAt; rewrite ?Hline;
    repeat workflow_step; host_flat; rewrite ?F7, ?F8.
  all: try reflexivity.
  all: try congruence.
  unfold ownLogEntries. by do 2 destruct (caught _).
Qed.

End FurtherFacts.

(** ** The further properties at concrete worlds *)

Lemma getErrorMessageForLine_first_match_witness :
  getErrorMessageForLine 7 same_line_diagnostics = None
  ∧ ∃ i d, same_line_diagnostics !! i = Some d
           ∧ line (position d) = 0
           ∧ flattened d = "Type 'string' is not assignable to type 'number'."
           ∧ ∀ j earlier, j < i → same_line_diagnostics !! j = Some earlier →
                          line (position earlier) ≠ 0.
Proof.
  split.
  - apply (proj1 (getErrorMessageForLine_first_match 7 same_line_diagnostics)).
    intros d Hd. repeat (apply elem_of_cons in Hd as [->|Hd]; [vm_compute; lia|]).
    by apply elem_of_nil in Hd.
  - refine (proj2 (getErrorMessageForLine_first_match 0 same_line_diagnostics) _ _).
    vm_compute. reflexivity.
Defined.

Lemma command_requires_typescript_editor_witness :
  trace (getTsErrors (with_editors [] answered_world))
  = [ActiveTextEditor; ShowErrorMessage "No active editor found."]
  ∧ trace (getTsErrors (with_editors [Some {| document := react_document |}] answered_world))
    = [ActiveTextEditor; ShowErrorMessage "This command only works with TypeScript files."].
Proof.
  split.
  - refine (proj1 (proj1 (command_requires_typescript_editor
                            (with_editors [] answered_world)) eq_refl)).
  - refine (proj1 (proj2 (command_requires_typescript_editor
                            (with_editors [Some {| document := react_document |}]
                               answered_world))
                         {| document := react_document |} eq_refl _)).
    discriminate.
Defined.

Lemma request_is_built_from_lookup_and_live_editor_witness :
  ∃ analysed editor later e message key lineText,
    w_editors answered_world = Some analysed :: Some editor :: later
    ∧ languageId (document analysed) = "typescript"
    ∧ Chosen answered_world e message
    ∧ KeyStored answered_world key
    ∧ lines (document editor) !! el_line e = Some lineText
    ∧ {| cfg_apiKey := "sk-test" |} = {| cfg_apiKey := key |}
    ∧ completionRequest "Cannot find name 'foo'." "foo();" (getText demo_document)
      = completionRequest message lineText (getText (document editor)).
Proof.
  apply (request_is_built_from_lookup_and_live_editor answered_world).
  apply (list_elem_of_lookup_2 _ 14). vm_compute. reflexivity.
Defined.

Lemma stale_line_throws_witness :
  outcome (getTypescriptErrors demo_document
             (with_editors [Some {| document := unsaved_document |}] answered_world))
  = Thrown (IllegalArgument "Illegal value for `line`").
Proof.
  rewrite (stale_line_throws demo_document
             (with_editors [Some {| document := unsaved_document |}] answered_world)
             "/ws" "/ws/tsconfig.json" demo_source (errorLine cannot_find_foo)
             "Cannot find name 'foo'." "sk-test" {| document := unsaved_document |} []).
  - reflexivity.
  - by apply (collected _ _ _ _ []).
  - apply (chosen _ _ _ 0); [reflexivity | reflexivity | vm_compute; reflexivity | discriminate].
  - split; [vm_compute; reflexivity | discriminate].
  - reflexivity.
  - vm_compute. lia.
Defined.

Lemma editor_closed_before_request_witness :
  outcome (getTypescriptErrors demo_document (with_editors [None] answered_world))
  = Returned None.
Proof.
  refine (proj2 (editor_closed_before_request demo_document
                   (with_editors [None] answered_world)
                   "/ws" "/ws/tsconfig.json" demo_source (errorLine cannot_find_foo)
                   "Cannot find name 'foo'." "sk-test" _ _ _ eq_refl)).
  - by apply (collected _ _ _ _ []).
  - apply (chosen _ _ _ 0); [reflexivity | reflexivity | vm_compute; reflexivity | discriminate].
  - split; [vm_compute; reflexivity | discriminate].
Defined.

Lemma unusable_key_ends_command_with_type_error_witness :
  outcome (getTsErrors (project_world [cannot_find_foo] (Some 0) {[ "apiKey" := "" ]}
                          endpoint_down))
  = Thrown (TypeError "Cannot read properties of undefined (reading 'length')").
Proof.
  refine (proj2 (unusable_key_ends_command_with_type_error
                   (project_world [cannot_find_foo] (Some 0) {[ "apiKey" := "" ]}
                      endpoint_down)
                   {| document := demo_document |} [Some {| document := demo_document |}]
                   "/ws" "/ws/tsconfig.json" demo_source (errorLine cannot_find_foo)
                   "Cannot find name 'foo'." eq_refl eq_refl _ _ _)).
  - by apply (collected _ _ _ _ []).
  - apply (chosen _ _ _ 0); [reflexivity | reflexivity | vm_compute; reflexivity | discriminate].
  - right. vm_compute. reflexivity.
Defined.

Lemma storeApiKey_touches_only_apiKey_witness :
  w_secrets (after (storeApiKey rekey_world)) !! "other" = w_secrets rekey_world !! "other"
  ∧ w_secrets (after (storeApiKey (with_input (Some "sk-newer")
                                     (after (storeApiKey rekey_world)))))
    = <["apiKey" := "sk-newer"]> (w_secrets rekey_world).
Proof.
  split.
  - refine (proj1 (storeApiKey_touches_only_apiKey rekey_world) "other" _). discriminate.
  - refine (proj2 (storeApiKey_touches_only_apiKey rekey_world) "sk-new" "sk-newer"
              eq_refl _ _); discriminate.
Defined.

Lemma stored_key_is_the_key_sent_witness :
  {| cfg_apiKey := "sk-new" |} = {| cfg_apiKey := "sk-new" |}.
Proof.
  refine (stored_key_is_the_key_sent
            (with_input (Some "sk-new") answered_world) "sk-new"
            {| cfg_apiKey := "sk-new" |}
            (completionRequest "Cannot find name 'foo'." "foo();" (getText demo_document))
            eq_refl _ _).
  - discriminate.
  - apply (list_elem_of_lookup_2 _ 14). vm_compute. reflexivity.
Defined.

Lemma dismissed_picker_reports_count_witness :
  last (trace (getTsErrors (project_world [cannot_find_foo] None ∅ endpoint_down)))
  = Some (ConsoleLog [LogNumber 1; LogDiagnostics [cannot_find_foo]])
  ∧ outcome (getTsErrors (project_world [cannot_find_foo] None ∅ endpoint_down))
    = Returned tt.
Proof.
  rewrite (dismissed_picker_reports_count
             (project_world [cannot_find_foo] None ∅ endpoint_down)
             {| document := demo_document |} [Some {| document := demo_document |}]
             "/ws" "/ws/tsconfig.json" demo_source);
    [ split; reflexivity | reflexivity | reflexivity | | discriminate | reflexivity ].
  by apply (collected _ _ _ _ []).
Defined.

Lemma suggestion_is_shown_then_count_reported_witness :
  completionRequests (trace (getTsErrors answered_world))
  = [completionRequest "Cannot find name 'foo'." "foo();" (getText demo_document)]
  ∧ outcome (getTsErrors answered_world) = Returned tt.
Proof.
  destruct (suggestion_is_shown_then_count_reported answered_world
              {| document := demo_document |} {| document := demo_document |} []
              "/ws" "/ws/tsconfig.json" demo_source (errorLine cannot_find_foo)
              "Cannot find name 'foo'." "sk-test" "foo();"
              (Some {| data := Some {| choices := Some
                 [ {| message := Some {| rsp_role := "assistant";
                                         rsp_content := Some "Declare foo before calling it." |} |} ]
                 |} |}))
    as (Hrequests & _ & Hreturned).
  - reflexivity.
  - reflexivity.
  - by apply (collected _ _ _ _ []).
  - apply (chosen _ _ _ 0); [reflexivity | reflexivity | vm_compute; reflexivity | discriminate].
  - split; [vm_compute; reflexivity | discriminate].
  - reflexivity.
  - reflexivity.
  - split; [exact Hrequests | exact Hreturned].
Defined.

Lemma getOpenAISuggestion_never_throws_witness :
  outcome (getOpenAISuggestion "Cannot find name 'foo'." "foo();" "sk-test"
             (getText demo_document)
             (project_world [cannot_find_foo] (Some 0) ∅ endpoint_malformed))
  = Returned "".
Proof.
  refine (proj1 (proj1 (proj2 (proj2
    (getOpenAISuggestion_never_throws "Cannot find name 'foo'." "foo();" "sk-test"
       (getText demo_document)
       (project_world [cannot_find_foo] (Some 0) ∅ endpoint_malformed)))) eq_refl)).
Defined.

Lemma analysis_is_scoped_to_the_document_witness :
  [fileName demo_document] = [fileName demo_document]
  ∧ demo_options = options (w_parsed answered_world).
Proof.
  refine (proj1 (proj2 (analysis_is_scoped_to_the_document demo_document answered_world))
            [fileName demo_document] demo_options _).
  apply (list_elem_of_lookup_2 _ 4). vm_compute. reflexivity.
Defined.

Lemma credential_is_read_only_after_selection_witness :
  "apiKey" = "apiKey" ∧ ∃ e message, Chosen answered_world e message.
Proof.
  apply (credential_is_read_only_after_selection demo_document answered_world).
  apply (list_elem_of_lookup_2 _ 8). vm_compute. reflexivity.
Defined.

Lemma own_log_entries_do_not_depend_on_key_witness :
  ownLogEntries (trace (getTypescriptErrors demo_document
                          (set_secrets (<["apiKey" := "sk-one"]> (w_secrets answered_world))
                             answered_world)))
  = ownLogEntries (trace (getTypescriptErrors demo_document
                            (set_secrets (<["apiKey" := "sk-two"]> (w_secrets answered_world))
                               answered_world))).
Proof.
  apply (own_log_entries_do_not_depend_on_key demo_document answered_world "sk-one" "sk-two");
    discriminate.
Defined.

Lemma no_error_branch_is_unreachable_witness :
  (∃ message, getErrorMessageForLine (el_line (errorLine cannot_find_foo)) [cannot_find_foo]
              = Some message ∧ message ≠ "")
  ∧ ShowErrorMessage "No error found on the selected line."
      ∉ trace (getTypescriptErrors demo_document answered_world).
Proof.
  assert (∀ d, d ∈ w_diagnostics answered_world → flattened d ≠ "") as Hmessages.
  { intros d Hd. change (d ∈ [cannot_find_foo]) in Hd.
    apply list_elem_of_singleton in Hd as ->. vm_compute. discriminate. }
  destruct (no_error_branch_is_unreachable demo_document answered_world Hmessages)
    as [Hfound Hbranch].
  split; [|exact Hbranch].
  refine (Hfound (errorLine cannot_find_foo) _). apply list_elem_of_here.
Defined.
